(** * Verification of the sample application's metrics instrumentation

    Shallow embedding of [sample-app/app.py]: the six Prometheus
    instruments, the two request hooks ([before_request],
    [after_request]) and the endpoint handlers ([health],
    [simulate_load], [simulate_error], [user_activity], [metrics]).

    Conventions of the embedding.
    - A Python float is the rational it denotes ([Q]); every comparison
      the handlers make is then exact.  [float_thresholds_exact] shows that
      for the 53-bit values [random.random()] produces, comparing against
      the binary doubles nearest to 0.2 and 0.3 gives the same branch as
      comparing against the decimal constants.  Where [simulate_load]
      computes with floats ([random.uniform], the test of its busy loop)
      each operation is rounded to the nearest double ([round_double]).
    - Everything the handlers obtain from outside the program (the wall
      clock, the random generator, [psutil], the local time, the
      serializer [generate_latest]) is read from an environment [Env]; each
      external call consumes one tick of the state's [tick] counter, so an
      environment is an arbitrary schedule of readings.
    - Handlers run in a state-and-exception monad [M]; instrument updates
      made before an exception is raised persist, as in Python. *)

From Stdlib Require Import QArith Qabs Qpower ZArith Lia Lqa.
From stdpp Require Import gmap strings list fin_maps pretty.

Local Open Scope string_scope.
#[local] Set Warnings "-register-all".

(** ** Exceptions and outcomes *)

(** A Python exception, identified by what [str(e)] returns. *)
Inductive exn : Type :=
  | Exception (msg : string).

Definition str (e : exn) : string :=
  match e with Exception msg => msg end.

(** Result of an external call that may fail. *)
Inductive Try (A : Type) : Type :=
  | Got (a : A)
  | Failed (e : exn).
Arguments Got {A} a.
Arguments Failed {A} e.

(** Result of running a piece of the program: a value, an exception that
    propagates, or a loop that used up the fuel it was given. *)
Inductive Outcome (A : Type) : Type :=
  | Return (a : A)
  | Raise (e : exn)
  | OutOfFuel.
Arguments Return {A} a.
Arguments Raise {A} e.
Arguments OutOfFuel {A}.

(** ** The instruments (lines 15-20) *)

(** A labelled Counter: one natural number per label combination; an
    unseen combination reads as 0. *)
Definition counter_value `{Countable K} (c : gmap K nat) (labels : K) : nat :=
  default 0%nat (c !! labels).

(** [Counter.labels(...).inc()] *)
Definition counter_inc `{Countable K} (labels : K) (c : gmap K nat) : gmap K nat :=
  <[labels := S (counter_value c labels)]> c.

(** A Histogram series is kept as the log of its observations, newest
    first; count, sum and cumulative buckets are views of the log. *)
Definition observations (h : gmap string (list Q)) (label : string) : list Q :=
  default [] (h !! label).

(** [Histogram.labels(...).observe(v)] *)
Definition histogram_observe (label : string) (v : Q) (h : gmap string (list Q))
  : gmap string (list Q) :=
  <[label := v :: observations h label]> h.

Definition histogram_count (h : gmap string (list Q)) (label : string) : nat :=
  length (observations h label).

Definition histogram_sum (h : gmap string (list Q)) (label : string) : Q :=
  foldr Qplus 0%Q (observations h label).

Definition histogram_bucket (h : gmap string (list Q)) (label : string) (le : Q) : nat :=
  length (filter (λ v, Qle_bool v le = true) (observations h label)).

Record Registry : Type := {
  REQUEST_COUNT : gmap (string * string * Z) nat;  (* method, endpoint, status_code *)
  REQUEST_LATENCY : gmap string (list Q);          (* endpoint *)
  ACTIVE_USERS : Q;
  SYSTEM_CPU : Q;
  SYSTEM_MEMORY : Q;
  ERROR_COUNT : gmap string nat;                   (* error_type *)
}.

(** All instruments at their creation values. *)
Definition fresh_registry : Registry :=
  {| REQUEST_COUNT := ∅; REQUEST_LATENCY := ∅; ACTIVE_USERS := 0%Q;
     SYSTEM_CPU := 0%Q; SYSTEM_MEMORY := 0%Q; ERROR_COUNT := ∅ |}.

Definition inc_REQUEST_COUNT (labels : string * string * Z) (r : Registry) : Registry :=
  {| REQUEST_COUNT := counter_inc labels (REQUEST_COUNT r);
     REQUEST_LATENCY := REQUEST_LATENCY r; ACTIVE_USERS := ACTIVE_USERS r;
     SYSTEM_CPU := SYSTEM_CPU r; SYSTEM_MEMORY := SYSTEM_MEMORY r;
     ERROR_COUNT := ERROR_COUNT r |}.

Definition observe_REQUEST_LATENCY (label : string) (v : Q) (r : Registry) : Registry :=
  {| REQUEST_COUNT := REQUEST_COUNT r;
     REQUEST_LATENCY := histogram_observe label v (REQUEST_LATENCY r);
     ACTIVE_USERS := ACTIVE_USERS r;
     SYSTEM_CPU := SYSTEM_CPU r; SYSTEM_MEMORY := SYSTEM_MEMORY r;
     ERROR_COUNT := ERROR_COUNT r |}.

Definition set_ACTIVE_USERS (v : Q) (r : Registry) : Registry :=
  {| REQUEST_COUNT := REQUEST_COUNT r; REQUEST_LATENCY := REQUEST_LATENCY r;
     ACTIVE_USERS := v;
     SYSTEM_CPU := SYSTEM_CPU r; SYSTEM_MEMORY := SYSTEM_MEMORY r;
     ERROR_COUNT := ERROR_COUNT r |}.

Definition set_SYSTEM_CPU (v : Q) (r : Registry) : Registry :=
  {| REQUEST_COUNT := REQUEST_COUNT r; REQUEST_LATENCY := REQUEST_LATENCY r;
     ACTIVE_USERS := ACTIVE_USERS r;
     SYSTEM_CPU := v; SYSTEM_MEMORY := SYSTEM_MEMORY r;
     ERROR_COUNT := ERROR_COUNT r |}.

Definition set_SYSTEM_MEMORY (v : Q) (r : Registry) : Registry :=
  {| REQUEST_COUNT := REQUEST_COUNT r; REQUEST_LATENCY := REQUEST_LATENCY r;
     ACTIVE_USERS := ACTIVE_USERS r;
     SYSTEM_CPU := SYSTEM_CPU r; SYSTEM_MEMORY := v;
     ERROR_COUNT := ERROR_COUNT r |}.

Definition inc_ERROR_COUNT (error_type : string) (r : Registry) : Registry :=
  {| REQUEST_COUNT := REQUEST_COUNT r; REQUEST_LATENCY := REQUEST_LATENCY r;
     ACTIVE_USERS := ACTIVE_USERS r;
     SYSTEM_CPU := SYSTEM_CPU r; SYSTEM_MEMORY := SYSTEM_MEMORY r;
     ERROR_COUNT := counter_inc error_type (ERROR_COUNT r) |}.

(** ** Environment and state *)

Record Env : Type := {
  (** successive results of [time.time()] (wall clock, seconds) *)
  clock_reading : nat → Q;
  (** raw output of the random generator *)
  entropy : nat → N;
  (** [psutil.cpu_percent(interval)] *)
  cpu_reading : Q → nat → Try Q;
  (** [psutil.virtual_memory().percent] *)
  memory_reading : nat → Try Q;
  (** [time.localtime().tm_hour] *)
  local_hour : nat → Z;
  (** [generate_latest()] applied to the current instruments *)
  latest_text : Registry → Try string;
}.

Record State : Type := {
  registry : Registry;
  (** number of external calls made so far *)
  tick : nat;
  (** [flask.g.start_time]; [None] while the attribute is unset *)
  g_start_time : option Q;
}.

(** ** The monad *)

Definition M (A : Type) : Type := Env → State → Outcome A * State.

Definition ret {A} (a : A) : M A := λ _ st, (Return a, st).

Definition bind {A B} (c : M A) (k : A → M B) : M B :=
  λ env st,
    match c env st with
    | (Return a, st') => k a env st'
    | (Raise e, st') => (Raise e, st')
    | (OutOfFuel, st') => (OutOfFuel, st')
    end.

Notation "'let*' x ':=' c 'in' k" := (bind c (λ x, k))
  (at level 10, x name, c at level 100, k at level 200).
Notation "c ';;' k" := (bind c (λ _, k))
  (at level 100, k at level 200, right associativity).

Definition raise {A} (e : exn) : M A := λ _ st, (Raise e, st).

Definition out_of_fuel {A} : M A := λ _ st, (OutOfFuel, st).

(** [try: body except Exception as e: handler e] *)
Definition try_except {A} (body : M A) (handler : exn → M A) : M A :=
  λ env st,
    match body env st with
    | (Raise e, st') => handler e env st'
    | other => other
    end.

Definition next_tick (st : State) : State :=
  {| registry := registry st; tick := S (tick st); g_start_time := g_start_time st |}.

(** An external call: read the environment at the current tick. *)
Definition external {A} (read : Env → nat → A) : M A :=
  λ env st, (Return (read env (tick st)), next_tick st).

Definition external_try {A} (read : Env → nat → Try A) : M A :=
  λ env st,
    match read env (tick st) with
    | Got a => (Return a, next_tick st)
    | Failed e => (Raise e, next_tick st)
    end.

Definition update_registry (f : Registry → Registry) : M unit :=
  λ _ st, (Return tt,
           {| registry := f (registry st); tick := tick st;
              g_start_time := g_start_time st |}).

(** ** Response values *)

(** What [jsonify] is given: Python strings, floats, ints, lists and
    dicts.  A dict is an association list in insertion order. *)
Inductive json : Type :=
  | JStr (s : string)
  | JFloat (q : Q)
  | JInt (z : Z)
  | JList (l : list json)
  | JDict (d : list (string * json)).

Fixpoint dict_get (d : list (string * json)) (key : string) : option json :=
  match d with
  | [] => None
  | (k, v) :: d' => if decide (k = key) then Some v else dict_get d' key
  end.

(** [d[key] = v]: overwrite in place, or append a new key. *)
Fixpoint dict_set (d : list (string * json)) (key : string) (v : json)
  : list (string * json) :=
  match d with
  | [] => [(key, v)]
  | (k, old) :: d' =>
      if decide (k = key) then (k, v) :: d' else (k, old) :: dict_set d' key v
  end.

(** [d[key].append(x)]; Python raises when the key is missing or does not
    hold a list, which is [None] here. *)
Definition dict_append (d : list (string * json)) (key : string) (x : json)
  : option (list (string * json)) :=
  match dict_get d key with
  | Some (JList l) => Some (dict_set d key (JList (l ++ [x])))
  | _ => None
  end.

Inductive Body : Type :=
  | JsonBody (d : list (string * json))
  | TextBody (s : string).

Record Response : Type := {
  body : Body;
  status_code : Z;
  mimetype : string;
}.

(** [jsonify(d)] *)
Definition jsonify (d : list (string * json)) : Response :=
  {| body := JsonBody d; status_code := 200; mimetype := "application/json" |}.

(** [return response, status] *)
Definition with_status (r : Response) (status : Z) : Response :=
  {| body := body r; status_code := status; mimetype := mimetype r |}.

(** The one-character string written [\n] in Python. *)
Definition newline : string := String (Ascii.ascii_of_nat 10) "".

Definition CONTENT_TYPE_LATEST : string := "text/plain; version=0.0.4; charset=utf-8".

(** Field of a JSON response body, if any. *)
Definition field (r : Response) (key : string) : option json :=
  match body r with
  | JsonBody d => dict_get d key
  | TextBody _ => None
  end.

(** ** Library calls *)

(** [time.time()] *)
Definition time_time : M Q := external clock_reading.

(** 53 random bits scaled into [0, 1), as [random.random()] builds its
    result. *)
Definition unit_interval (raw : N) : Q :=
  Z.of_N (raw mod 2 ^ 53) # (2 ^ 53).

(** [random.random()] *)
Definition random_random : M Q :=
  let* raw := external entropy in ret (unit_interval raw).

(** Nearest integer to [q], ties to even. *)
Definition round_half_even (q : Q) : Z :=
  let d := Z.pos (Qden q) in
  let fl := (Qnum q / d)%Z in
  let r2 := (2 * (Qnum q mod d))%Z in
  if (r2 <? d)%Z then fl
  else if (d <? r2)%Z then (fl + 1)%Z
  else if Z.even fl then fl else (fl + 1)%Z.

(** The exponent of the largest power of two not above [x], for [x > 0]:
    [Z.log2] of numerator and denominator give it to within one. *)
Definition binade (x : Q) : Z :=
  let e0 := (Z.log2 (Qnum x) - Z.log2 (Z.pos (Qden x)))%Z in
  if Qle_bool (2 ^ e0) x then e0 else (e0 - 1)%Z.

(** The multiple of [2 ^ e] nearest to [x], ties to the even multiple. *)
Definition round_at (e : Z) (x : Q) : Q :=
  (inject_Z (round_half_even (x / 2 ^ e)) * 2 ^ e)%Q.

(** The exponent of the last place of the double nearest to [x]: 53
    significant bits, and not below the subnormal spacing [2 ^ -1074]. *)
Definition exponent (x : Q) : Z := Z.max (binade (Qabs x) - 52) (-1074).

(** The binary double nearest to [x], ties to even, which is what a float
    operation with exact result [x] returns (below the overflow
    threshold). *)
Definition round_double (x : Q) : Q := round_at (exponent x) x.

(** [random.uniform(a, b)], which is [a + (b - a) * random()] in float
    arithmetic: three operations, each rounded. *)
Definition random_uniform (a b : Q) : M Q :=
  let* u := random_random in
  ret (round_double (a + round_double (round_double (b - a) * u))).

(** An integer of [a .. b] chosen by the raw value. *)
Definition in_range (a b : Z) (raw : N) : Z :=
  (a + Z.of_N raw mod (b - a + 1))%Z.

(** [random.randint(a, b)] *)
Definition random_randint (a b : Z) : M Z :=
  let* raw := external entropy in ret (in_range a b raw).

(** [psutil.cpu_percent(interval=...)] *)
Definition psutil_cpu_percent (interval : Q) : M Q :=
  external_try (λ env, cpu_reading env interval).

(** [psutil.virtual_memory().percent] *)
Definition psutil_virtual_memory_percent : M Q :=
  external_try memory_reading.

(** [time.localtime().tm_hour] *)
Definition time_localtime_tm_hour : M Z := external local_hour.

(** [generate_latest()] *)
Definition generate_latest : M string :=
  λ env st,
    match latest_text env (registry st) with
    | Got txt => (Return txt, st)
    | Failed e => (Raise e, st)
    end.

(** [a < b] and [a > b] on floats *)
Definition Qltb (a b : Q) : bool := negb (Qle_bool b a).
Definition Qgtb (a b : Q) : bool := Qltb b a.

Definition two_digits (n : Z) : string :=
  (if (n <? 10)%Z then "0" else "") +:+ pretty n.

(** [f'{q:.2f}'] *)
Definition format_2f (q : Q) : string :=
  let hundredths := round_half_even (Qabs q * 100) in
  (if Qltb q 0 then "-" else "")
    +:+ pretty (hundredths / 100)%Z +:+ "." +:+ two_digits (hundredths mod 100)%Z.

(** ** The request hooks (lines 22-47) *)

(** [flask.request], as the dispatcher supplies it: [endpoint] is [None]
    when no route matched. *)
Record Request : Type := {
  method : string;
  endpoint : option string;
}.

(** [x or 'unknown']: [None] and the empty string are both falsy. *)
Definition or_unknown (x : option string) : string :=
  match x with
  | Some s => if decide (s = "") then "unknown" else s
  | None => "unknown"
  end.

(** [flask.g.start_time = v] *)
Definition set_g_start_time (v : Q) : M unit :=
  λ _ st, (Return tt,
           {| registry := registry st; tick := tick st; g_start_time := Some v |}).

(** [flask.g.start_time]; an unset attribute raises. *)
Definition get_g_start_time : M Q :=
  λ _ st,
    match g_start_time st with
    | Some v => (Return v, st)
    | None => (Raise (Exception "'_AppCtxGlobals' object has no attribute 'start_time'"), st)
    end.

Definition before_request : M unit :=
  let* now := time_time in
  set_g_start_time now.

Definition after_request (request : Request) (response : Response) : M Response :=
  let* now := time_time in
  let* start_time := get_g_start_time in
  let request_duration := (now - start_time)%Q in
  update_registry
    (inc_REQUEST_COUNT
       (method request, or_unknown (endpoint request), status_code response)) ;;
  update_registry
    (observe_REQUEST_LATENCY (or_unknown (endpoint request)) request_duration) ;;
  ret response.

(** ** The handlers (lines 74-177) *)

(** [health_data['warnings'].append(x)] *)
Definition warnings_append (health_data : list (string * json)) (x : json)
  : M (list (string * json)) :=
  match dict_append health_data "warnings" x with
  | Some d => ret d
  | None => raise (Exception "'warnings'")
  end.

Definition health : M Response :=
  try_except
    (let* cpu_percent := psutil_cpu_percent 1 in
     let* memory_percent := psutil_virtual_memory_percent in
     let* timestamp := time_time in
     let health_data :=
       [("status", JStr "healthy");
        ("timestamp", JFloat timestamp);
        ("system", JDict [("cpu_percent", JFloat cpu_percent);
                          ("memory_percent", JFloat memory_percent)])] in
     let* health_data :=
       if Qgtb cpu_percent 90 || Qgtb memory_percent 90 then
         let health_data := dict_set health_data "status" (JStr "degraded") in
         let health_data := dict_set health_data "warnings" (JList []) in
         let* health_data :=
           if Qgtb cpu_percent 90
           then warnings_append health_data (JStr "High CPU usage")
           else ret health_data in
         if Qgtb memory_percent 90
         then warnings_append health_data (JStr "High memory usage")
         else ret health_data
       else ret health_data in
     ret (jsonify health_data))
    (λ e,
       update_registry (inc_ERROR_COUNT "health_check") ;;
       ret (with_status
              (jsonify [("status", JStr "unhealthy"); ("error", JStr (str e))]) 500)).

(** [while time.time() - start_time < duration: sum(i*i for i in range(1000))];
    the body computes a sum and drops it.  The difference is a float
    subtraction, the comparison is exact.  One unit of fuel per test of
    the loop condition. *)
Fixpoint busy_spin (fuel : nat) (start_time duration : Q) : M unit :=
  match fuel with
  | O => out_of_fuel
  | S fuel' =>
      let* now := time_time in
      if Qltb (round_double (now - start_time)) duration
      then busy_spin fuel' start_time duration
      else ret tt
  end.

Definition simulate_load (fuel : nat) : M Response :=
  try_except
    (let* duration := random_uniform 0.5 3.0 in
     let* start_time := time_time in
     busy_spin fuel start_time duration ;;
     let* users := random_randint 20 100 in
     update_registry (set_ACTIVE_USERS (inject_Z users)) ;;
     let* timestamp := time_time in
     ret (jsonify [("message", JStr "Load simulation completed");
                   ("duration", JStr (format_2f duration +:+ "s"));
                   ("timestamp", JFloat timestamp)]))
    (λ e,
       update_registry (inc_ERROR_COUNT "load_simulation") ;;
       ret (with_status (jsonify [("error", JStr (str e))]) 500)).

Definition simulate_error : M Response :=
  let* error_chance := random_random in
  if Qltb error_chance 0.2 then
    update_registry (inc_ERROR_COUNT "server_error") ;;
    ret (with_status (jsonify [("error", JStr "Internal server error")]) 500)
  else if Qltb error_chance 0.3 then
    update_registry (inc_ERROR_COUNT "client_error") ;;
    ret (with_status (jsonify [("error", JStr "Bad request")]) 400)
  else
    let* value := random_randint 1 100 in
    ret (jsonify [("message", JStr "Success response"); ("value", JInt value)]).

Definition user_activity : M Response :=
  let* hour := time_localtime_tm_hour in
  let* users :=
    if (9 <=? hour)%Z && (hour <=? 17)%Z
    then random_randint 30 80
    else random_randint 5 25 in
  update_registry (set_ACTIVE_USERS (inject_Z users)) ;;
  let* timestamp := time_time in
  ret (jsonify [("active_users", JInt users);
                ("hour", JInt hour);
                ("timestamp", JFloat timestamp)]).

Definition metrics : M Response :=
  try_except
    (let* cpu := psutil_cpu_percent 0.1 in
     update_registry (set_SYSTEM_CPU cpu) ;;
     let* mem := psutil_virtual_memory_percent in
     update_registry (set_SYSTEM_MEMORY mem) ;;
     let* text := generate_latest in
     ret {| body := TextBody text; status_code := 200;
            mimetype := CONTENT_TYPE_LATEST |})
    (λ e,
       update_registry (inc_ERROR_COUNT "metrics_error") ;;
       ret {| body := TextBody ("# Metrics unavailable" +:+ newline);
              status_code := 500; mimetype := CONTENT_TYPE_LATEST |}).

(** ** The request lifecycle around the hooks *)

(** The response Flask substitutes for a view that raised, when the
    application registers no error handler (as here). *)
Definition InternalServerError : Response :=
  {| body := TextBody "Internal Server Error"; status_code := 500;
     mimetype := "text/html" |}.

(** One request as Flask drives it for this application: the
    [before_request] hook, the view, and the [after_request] hook on the
    view's response or, when the view raised, on the substituted 500
    response. *)
Definition handle_request (request : Request) (view : M Response) : M Response :=
  before_request ;;
  let* rv := try_except view (λ _, ret InternalServerError) in
  after_request request rv.

(** ** Statements shared by the theorems *)

(** A Counter went from [before] to [after] by exactly one [inc()] on one
    of its series. *)
Definition incremented_once `{Countable K} (before after : gmap K nat) : Prop :=
  ∃ labels, after = counter_inc labels before.

(** The raw random value a program in state [st] draws next. *)
Definition next_draw (env : Env) (st : State) : N := entropy env (tick st).

(** Readings of the instruments in a state. *)
Definition error_count (st : State) (error_type : string) : nat :=
  counter_value (ERROR_COUNT (registry st)) error_type.

Definition request_count (st : State) (labels : string * string * Z) : nat :=
  counter_value (REQUEST_COUNT (registry st)) labels.

Definition latency_observations (st : State) (label : string) : list Q :=
  observations (REQUEST_LATENCY (registry st)) label.

(** Every instrument other than [ERROR_COUNT] is the same in both states. *)
Definition instruments_but_errors_unchanged (st st' : State) : Prop :=
  REQUEST_COUNT (registry st') = REQUEST_COUNT (registry st) ∧
  REQUEST_LATENCY (registry st') = REQUEST_LATENCY (registry st) ∧
  ACTIVE_USERS (registry st') = ACTIVE_USERS (registry st) ∧
  SYSTEM_CPU (registry st') = SYSTEM_CPU (registry st) ∧
  SYSTEM_MEMORY (registry st') = SYSTEM_MEMORY (registry st).

(** The state in which the view starts: [before_request] has read the
    clock once and stored the reading. *)
Definition started (env : Env) (st : State) : State :=
  {| registry := registry st; tick := S (tick st);
     g_start_time := Some (clock_reading env (tick st)) |}.

(** The response of the [except] branch of [metrics]. *)
Definition metrics_fallback : Response :=
  {| body := TextBody ("# Metrics unavailable" +:+ newline);
     status_code := 500; mimetype := CONTENT_TYPE_LATEST |}.

(** Some step of the [try] block of [metrics] fails with [e]: the CPU
    reading, the memory reading, or the serializer. *)
Definition metrics_failure (env : Env) (st : State) (e : exn) : Prop :=
  cpu_reading env 0.1 (tick st) = Failed e ∨
  (∃ cpu, cpu_reading env 0.1 (tick st) = Got cpu ∧
          memory_reading env (S (tick st)) = Failed e) ∨
  (∃ cpu mem, cpu_reading env 0.1 (tick st) = Got cpu ∧
              memory_reading env (S (tick st)) = Got mem ∧
              latest_text env (set_SYSTEM_MEMORY mem (set_SYSTEM_CPU cpu (registry st)))
                = Failed e).

(** The duration [simulate_load] draws in state [st]: the double that
    [random.uniform(0.5, 3.0)] returns for the generator's next value. *)
Definition drawn_duration (env : Env) (st : State) : Q :=
  round_double
    (0.5 + round_double (round_double (3.0 - 0.5) * unit_interval (next_draw env st))).

(** Time elapsed in the busy loop of [simulate_load], started in state
    [st], as the loop computes it at its [i]-th test of the loop condition
    (counting from 0). *)
Definition spin_elapsed (env : Env) (st : State) (i : nat) : Q :=
  round_double
    (clock_reading env (S (S (tick st)) + i) - clock_reading env (S (tick st))).

(** The loop condition of [busy_spin] at the [i]-th reading after [st]. *)
Definition still_spinning (env : Env) (st : State) (start_time duration : Q)
    (i : nat) : bool :=
  Qltb (round_double (clock_reading env (tick st + i) - start_time)) duration.

(** [n] external calls later. *)
Definition advance (n : nat) (st : State) : State :=
  {| registry := registry st; tick := tick st + n; g_start_time := g_start_time st |}.

(** The doubles nearest to 0.2 and 0.3, which are what the comparisons of
    [simulate_error] see at run time. *)
Definition double_0_2 : Q := 3602879701896397 # (2 ^ 54).
Definition double_0_3 : Q := 5404319552844595 # (2 ^ 54).

(** ** Environments and states used as concrete inputs *)

Definition idle_state : State :=
  {| registry := fresh_registry; tick := 0; g_start_time := None |}.

(** A well-behaved environment: the clock advances one second per call,
    the generator returns [raw] on every call, the stat source reads
    [cpu] and [mem], and it is [hour] o'clock. *)
Definition steady_env (raw : N) (cpu mem : Q) (hour : Z) : Env :=
  {| clock_reading := λ n, inject_Z (Z.of_nat n);
     entropy := λ _, raw;
     cpu_reading := λ _ _, Got cpu;
     memory_reading := λ _, Got mem;
     local_hour := λ _, hour;
     latest_text := λ _, Got "# HELP app_requests_total Total number of requests" |}.

(** The stat source is down. *)
Definition stat_down_env : Env :=
  {| clock_reading := λ n, inject_Z (Z.of_nat n);
     entropy := λ _, 0%N;
     cpu_reading := λ _ _, Failed (Exception "stat source unavailable");
     memory_reading := λ _, Failed (Exception "stat source unavailable");
     local_hour := λ _, 12%Z;
     latest_text := λ _, Got "" |}.

(** The wall clock is set back by one second between the first reading
    (100) and every later one (99). *)
Definition clock_set_back_env : Env :=
  {| clock_reading := λ n, match n with O => 100%Q | S _ => 99%Q end;
     entropy := λ _, 0%N;
     cpu_reading := λ _ _, Got 10%Q;
     memory_reading := λ _, Got 10%Q;
     local_hour := λ _, 12%Z;
     latest_text := λ _, Got "" |}.

(** Three eighths of a second pass between consecutive clock readings,
    as when the process is descheduled between them. *)
Definition slow_reader_env : Env :=
  {| clock_reading := λ n, (inject_Z (Z.of_nat n) * 0.375)%Q;
     entropy := λ _, 0%N;
     cpu_reading := λ _ _, Got 10%Q;
     memory_reading := λ _, Got 10%Q;
     local_hour := λ _, 12%Z;
     latest_text := λ _, Got "" |}.


Definition get_unrouted : Request := {| method := "GET"; endpoint := None |}.

(** ** The rest of the application: the static page, the route table,
       start-up *)

(** The one-character string holding a double quote. *)
Definition dq : string := String (Ascii.ascii_of_nat 34) EmptyString.

(** The static page of [home] (lines 52-72), line by line. *)
Definition home_page : string :=
  String.concat newline [
    EmptyString;
    "    <h1>🚀 DevOps Monitoring Lab</h1>";
    "    <p>Sample application demonstrating Prometheus monitoring integration.</p>";
    "    ";
    "    <h2>🔍 Application Endpoints:</h2>";
    "    <ul>";
    "        <li><a href=" +:+ dq +:+ "/metrics" +:+ dq +:+ ">📊 Prometheus Metrics</a></li>";
    "        <li><a href=" +:+ dq +:+ "/health" +:+ dq +:+ ">❤️ Health Check</a></li>";
    "        <li><a href=" +:+ dq +:+ "/simulate-load" +:+ dq +:+ ">⚡ Simulate Load</a></li>";
    "        <li><a href=" +:+ dq +:+ "/simulate-error" +:+ dq +:+ ">💥 Simulate Errors</a></li>";
    "        <li><a href=" +:+ dq +:+ "/user-activity" +:+ dq +:+ ">👥 User Activity</a></li>";
    "    </ul>";
    "    ";
    "    <h2>📊 Monitoring Stack:</h2>";
    "    <ul>";
    "        <li><a href=" +:+ dq +:+ "http://localhost:9090" +:+ dq +:+ " target=" +:+ dq +:+ "_blank" +:+ dq +:+ ">Prometheus UI</a> - Metrics & Alerts</li>";
    "        <li><a href=" +:+ dq +:+ "http://localhost:3000" +:+ dq +:+ " target=" +:+ dq +:+ "_blank" +:+ dq +:+ ">Grafana</a> - Dashboards (admin/devops123)</li>";
    "        <li><a href=" +:+ dq +:+ "http://localhost:8080" +:+ dq +:+ " target=" +:+ dq +:+ "_blank" +:+ dq +:+ ">cAdvisor</a> - Container Metrics</li>";
    "        <li><a href=" +:+ dq +:+ "http://localhost:9100/metrics" +:+ dq +:+ " target=" +:+ dq +:+ "_blank" +:+ dq +:+ ">Node Exporter</a> - System Metrics</li>";
    "    </ul>";
    "    "
  ].

(** [home] (lines 49-72): a view that returns a string; Flask wraps it
    into a 200 response of type text/html. *)
Definition home : M Response :=
  ret {| body := TextBody home_page; status_code := 200; mimetype := "text/html" |}.

(** The [__main__] block (lines 179-187) up to the call that starts the
    server: the initial value of the active-users Gauge. *)
Definition main : M unit :=
  let* users := random_randint 10 50 in
  update_registry (set_ACTIVE_USERS (inject_Z users)).

(** The rules registered by the [@app.route] decorators (lines 49, 74,
    105, 129, 146, 165): path to endpoint name, which is the name of the
    decorated function.  Only an exact match of one of the six paths is
    covered; what the router adds of its own (merging of repeated slashes,
    redirects, the built-in rule for static files) is not, so nothing
    below is stated about which label a given path is recorded under. *)
Definition url_map (path : string) : option string :=
  if decide (path = "/") then Some "home"
  else if decide (path = "/health") then Some "health"
  else if decide (path = "/simulate-load") then Some "simulate_load"
  else if decide (path = "/simulate-error") then Some "simulate_error"
  else if decide (path = "/user-activity") then Some "user_activity"
  else if decide (path = "/metrics") then Some "metrics"
  else None.

(** Endpoint name to view function; [fuel] bounds the busy loop of
    [simulate_load]. *)
Definition view_functions (fuel : nat) (name : string) : option (M Response) :=
  if decide (name = "home") then Some home
  else if decide (name = "health") then Some health
  else if decide (name = "simulate_load") then Some (simulate_load fuel)
  else if decide (name = "simulate_error") then Some simulate_error
  else if decide (name = "user_activity") then Some user_activity
  else if decide (name = "metrics") then Some metrics
  else None.

(** The response Flask gives when no rule matches the path. *)
Definition NotFound : Response :=
  {| body := TextBody "Not Found"; status_code := 404; mimetype := "text/html" |}.

(** The view Flask runs for a request context. *)
Definition dispatch_request (fuel : nat) (request : Request) : M Response :=
  match endpoint request with
  | Some name =>
      match view_functions fuel name with
      | Some view => view
      | None => ret NotFound
      end
  | None => ret NotFound
  end.

(** One GET request for [path], hooks included. *)
Definition serve_get (fuel : nat) (path : string) : M Response :=
  let request := {| method := "GET"; endpoint := url_map path |} in
  handle_request request (dispatch_request fuel request).

(** GET requests for [paths], one after the other. *)
Fixpoint serve_all (fuel : nat) (paths : list string) : M unit :=
  match paths with
  | [] => ret tt
  | path :: rest => serve_get fuel path ;; serve_all fuel rest
  end.

(** ** Further statements *)

(** The active-users Gauge holds an integer of 5 .. 100. *)
Definition users_in_range (st : State) : Prop :=
  ∃ users : Z, ACTIVE_USERS (registry st) = inject_Z users ∧ (5 <= users <= 100)%Z.

(** Sum of all series of a Counter. *)
Definition counter_total `{Countable K} (c : gmap K nat) : nat :=
  map_fold (λ _ v acc, (v + acc)%nat) 0%nat c.

(** Number of observations over all series of a Histogram. *)
Definition observation_total (h : gmap string (list Q)) : nat :=
  map_fold (λ _ l acc, (length l + acc)%nat) 0%nat h.

(** The error Counter did not move, or one of its series went up by one. *)
Definition at_most_one_error (st st' : State) : Prop :=
  ERROR_COUNT (registry st') = ERROR_COUNT (registry st) ∨
  incremented_once (ERROR_COUNT (registry st)) (ERROR_COUNT (registry st')).

(** What every view of the application respects, whatever its outcome:
    it does not raise, and it leaves the start time and the two request
    instruments alone, counts at most one error and keeps the
    active-users Gauge in range. *)
Definition well_behaved (view : M Response) : Prop :=
  ∀ (env : Env) (st : State),
    let run := view env st in
    (∀ e, fst run ≠ Raise e) ∧
    g_start_time (snd run) = g_start_time st ∧
    REQUEST_COUNT (registry (snd run)) = REQUEST_COUNT (registry st) ∧
    REQUEST_LATENCY (registry (snd run)) = REQUEST_LATENCY (registry st) ∧
    at_most_one_error st (snd run) ∧
    (users_in_range st → users_in_range (snd run)).

(** Of the 2^53 values [random.random()] can take, those below 0.2 and
    those below 0.3. *)
Definition draws_below_0_2 : N := 1801439850948199.
Definition draws_below_0_3 : N := 2702159776422298.

(** The CPU reading succeeds and the memory reading fails. *)
Definition memory_down_env : Env :=
  {| clock_reading := λ n, inject_Z (Z.of_nat n);
     entropy := λ _, 0%N;
     cpu_reading := λ _ _, Got 42%Q;
     memory_reading := λ _, Failed (Exception "stat source unavailable");
     local_hour := λ _, 12%Z;
     latest_text := λ _, Got "" |}.

(** ** Basic facts *)

Arguments unit_interval : simpl never.
Arguments in_range : simpl never.
Arguments format_2f : simpl never.
Arguments round_double : simpl never.

(** The rounding functions are the last thing conversion should unfold. *)
Strategy 100 [round_double round_at exponent binade round_half_even].

Section Counters.
Context `{Countable K}.
Implicit Types (c : gmap K nat) (k : K).

Lemma counter_value_inc c k :
  counter_value (counter_inc k c) k = S (counter_value c k).
Proof. unfold counter_value at 1, counter_inc. by rewrite lookup_insert_eq. Qed.

Lemma counter_value_inc_ne c k k' :
  k ≠ k' → counter_value (counter_inc k c) k' = counter_value c k'.
Proof.
  intros Hne. unfold counter_value, counter_inc.
  by rewrite lookup_insert_ne.
Qed.


End Counters.

Lemma observations_observe h label v :
  observations (histogram_observe label v h) label = v :: observations h label.
Proof. unfold observations at 1, histogram_observe. by rewrite lookup_insert_eq. Qed.

Lemma observations_observe_ne h label label' v :
  label ≠ label' →
  observations (histogram_observe label v h) label' = observations h label'.
Proof.
  intros Hne. unfold observations, histogram_observe.
  by rewrite lookup_insert_ne.
Qed.

Lemma histogram_count_observe h label v :
  histogram_count (histogram_observe label v h) label = S (histogram_count h label).
Proof. unfold histogram_count. by rewrite observations_observe. Qed.

Lemma Qltb_lt (a b : Q) : Qltb a b = true ↔ (a < b)%Q.
Proof.
  unfold Qltb. rewrite negb_true_iff, <- not_true_iff_false, Qle_bool_iff.
  split; [apply Qnot_le_lt | apply Qlt_not_le].
Qed.

Lemma Qltb_ge (a b : Q) : Qltb a b = false ↔ (b <= a)%Q.
Proof.
  unfold Qltb. rewrite negb_false_iff. apply Qle_bool_iff.
Qed.

Lemma unit_interval_range (raw : N) :
  (0 <= unit_interval raw)%Q ∧ (unit_interval raw < 1)%Q.
Proof.
  unfold unit_interval, Qle, Qlt. cbn [Qnum Qden].
  assert (Hlt : (raw mod 2 ^ 53 < 2 ^ 53)%N) by (by apply N.mod_upper_bound).
  change (Z.pos (2 ^ 53)) with (Z.of_N (2 ^ 53)%N).
  set (m := (2 ^ 53)%N) in *. set (r := (raw mod m)%N) in *.
  clearbody r m. split; lia.
Qed.

Lemma in_range_bounds (a b : Z) (raw : N) :
  (a <= b)%Z → (a <= in_range a b raw <= b)%Z.
Proof.
  intros Hab. unfold in_range.
  pose proof (Z.mod_pos_bound (Z.of_N raw) (b - a + 1)). lia.
Qed.

(** On the values [random.random()] can return, comparing with the
    doubles and comparing with the decimal constants pick the same branch. *)
Lemma float_thresholds_exact (raw : N) :
  Qltb (unit_interval raw) double_0_2 = Qltb (unit_interval raw) 0.2 ∧
  Qltb (unit_interval raw) double_0_3 = Qltb (unit_interval raw) 0.3.
Proof.
  assert (Hb : ∀ x y : bool, (x = true ↔ y = true) → x = y).
  { intros [] [] [? ?]; auto. symmetry; auto. }
  assert (Hlt : (raw mod 2 ^ 53 < 2 ^ 53)%N) by (by apply N.mod_upper_bound).
  split; apply Hb; rewrite !Qltb_lt;
    unfold unit_interval, double_0_2, double_0_3, Qlt; cbn [Qnum Qden];
    change (Z.pos (2 ^ 53)) with (Z.of_N (2 ^ 53)%N);
    change (Z.pos (2 ^ 54)) with 18014398509481984%Z;
    change (Qnum 0.2) with 2%Z; change (Z.pos (Qden 0.2)) with 10%Z;
    change (Qnum 0.3) with 3%Z; change (Z.pos (Qden 0.3)) with 10%Z;
    assert (Hm : Z.of_N (2 ^ 53) = 9007199254740992%Z) by reflexivity;
    set (m := (2 ^ 53)%N) in *; set (r := (raw mod m)%N) in *;
    clearbody r m; lia.
Qed.

(** ** Running the monad *)

Ltac run_monad :=
  unfold time_time, random_uniform, random_randint, psutil_cpu_percent,
    psutil_virtual_memory_percent, time_localtime_tm_hour, generate_latest,
    set_g_start_time, get_g_start_time;
  unfold random_random;
  unfold bind, ret, raise, out_of_fuel, try_except, external, external_try,
    update_registry;
  cbn [fst snd registry tick g_start_time next_tick].

Lemma before_request_run (env : Env) (st : State) :
  before_request env st = (Return tt, started env st).
Proof. reflexivity. Qed.

Lemma after_request_run (env : Env) (st : State) (request : Request)
    (response : Response) (start : Q) :
  g_start_time st = Some start →
  after_request request response env st
    = (Return response,
       {| registry :=
            observe_REQUEST_LATENCY (or_unknown (endpoint request))
              (clock_reading env (tick st) - start)
              (inc_REQUEST_COUNT
                 (method request, or_unknown (endpoint request), status_code response)
                 (registry st));
          tick := S (tick st);
          g_start_time := Some start |}).
Proof.
  intros Hg. unfold after_request. run_monad. rewrite Hg.
  cbn [registry tick g_start_time next_tick]. by rewrite Hg.
Qed.

(** The hook leaves every instrument but its own two alone. *)
Lemma after_request_frame (env : Env) (st : State) (request : Request)
    (response : Response) :
  let st' := snd (after_request request response env st) in
  ERROR_COUNT (registry st') = ERROR_COUNT (registry st) ∧
  ACTIVE_USERS (registry st') = ACTIVE_USERS (registry st) ∧
  SYSTEM_CPU (registry st') = SYSTEM_CPU (registry st) ∧
  SYSTEM_MEMORY (registry st') = SYSTEM_MEMORY (registry st).
Proof.
  unfold after_request. run_monad.
  destruct (g_start_time st); repeat split.
Qed.

(** ** Rounding to doubles *)

(** [round_half_even q] is an integer nearest to [q]. *)
Lemma round_half_even_close (q : Q) :
  (Qabs (inject_Z (round_half_even q) - q) <= 1 # 2)%Q.
Proof.
  apply Qabs_Qle_condition.
  unfold round_half_even, Qle, Qminus, Qplus, Qopp, inject_Z.
  destruct q as [n d]. cbn [Qnum Qden].
  pose proof (Z.div_mod n (Z.pos d) ltac:(lia)) as Hdm.
  pose proof (Z.mod_pos_bound n (Z.pos d) ltac:(lia)) as Hr.
  set (fl := (n / Z.pos d)%Z) in *. set (r := (n mod Z.pos d)%Z) in *.
  clearbody fl r.
  rewrite !Pos.mul_1_l.
  destruct (2 * r <? Z.pos d)%Z eqn:Hlt; [apply Z.ltb_lt in Hlt; split; nia|].
  apply Z.ltb_ge in Hlt.
  destruct (Z.pos d <? 2 * r)%Z eqn:Hgt; [apply Z.ltb_lt in Hgt; split; nia|].
  apply Z.ltb_ge in Hgt.
  destruct (Z.even fl); split; nia.
Qed.

Lemma half_integer_le (a h : Z) : (inject_Z a <= inject_Z h + (1 # 2))%Q → (a <= h)%Z.
Proof. unfold Qle, Qplus, inject_Z. cbn [Qnum Qden]. lia. Qed.

Lemma round_half_even_ge (a : Z) (q : Q) :
  (inject_Z a <= q)%Q → (a <= round_half_even q)%Z.
Proof.
  intros Ha. pose proof (round_half_even_close q) as Hc.
  apply Qabs_Qle_condition in Hc as [Hlo Hhi].
  apply half_integer_le. lra.
Qed.

Lemma round_half_even_le (b : Z) (q : Q) :
  (q <= inject_Z b)%Q → (round_half_even q <= b)%Z.
Proof.
  intros Hb. pose proof (round_half_even_close q) as Hc.
  apply Qabs_Qle_condition in Hc as [Hlo Hhi].
  apply half_integer_le. lra.
Qed.

Lemma pow2_pos (e : Z) : (0 < 2 ^ e)%Q.
Proof. by apply Qpower_0_lt. Qed.

Lemma pow2_inject (n : Z) : (0 <= n)%Z → (inject_Z (2 ^ n) == 2 ^ n)%Q.
Proof. intros Hn. by rewrite Zpower_Qpower. Qed.

Lemma pow2_plus (n m : Z) : (2 ^ (n + m) == 2 ^ n * 2 ^ m)%Q.
Proof. by apply Qpower_plus. Qed.

(** A multiple of [2 ^ E] is a multiple of every smaller power of two. *)
Lemma grid_refine (k e E : Z) :
  (e <= E)%Z → (inject_Z k * 2 ^ E == inject_Z (k * 2 ^ (E - e)) * 2 ^ e)%Q.
Proof.
  intros He. rewrite inject_Z_mult, pow2_inject by lia.
  rewrite <- Qmult_assoc, <- pow2_plus.
  by replace (E - e + e)%Z with E by lia.
Qed.

Lemma round_at_between (e a b : Z) (x : Q) :
  (inject_Z a * 2 ^ e <= x)%Q → (x <= inject_Z b * 2 ^ e)%Q →
  (inject_Z a * 2 ^ e <= round_at e x)%Q ∧ (round_at e x <= inject_Z b * 2 ^ e)%Q.
Proof.
  intros Ha Hb. pose proof (pow2_pos e) as Hpos. unfold round_at.
  split; apply Qmult_le_compat_r; try (by apply Qlt_le_weak);
    rewrite <- Zle_Qle.
  - apply round_half_even_ge. by apply Qle_shift_div_l.
  - apply round_half_even_le. by apply Qle_shift_div_r.
Qed.

Lemma round_at_error (e : Z) (x : Q) :
  (Qabs (round_at e x - x) <= 2 ^ e * (1 # 2))%Q.
Proof.
  pose proof (pow2_pos e) as Hpos. unfold round_at.
  pose proof (round_half_even_close (x / 2 ^ e)) as Hc.
  set (h := inject_Z (round_half_even (x / 2 ^ e))) in *. clearbody h.
  assert (Hne : ¬ (2 ^ e == 0)%Q).
  { intros H0. rewrite H0 in Hpos. by apply Qlt_irrefl in Hpos. }
  assert (Heq : (h * 2 ^ e - x == (h - x / 2 ^ e) * 2 ^ e)%Q) by (by field).
  rewrite Heq.
  rewrite Qabs_Qmult, (Qabs_pos (2 ^ e)) by (by apply Qlt_le_weak).
  rewrite (Qmult_comm (2 ^ e)).
  apply Qmult_le_compat_r; [exact Hc | by apply Qlt_le_weak].
Qed.

Lemma log2_nonpos (n : Z) : (n <= 0)%Z → Z.log2 n = 0%Z.
Proof. intros Hn. by apply Z.log2_nonpos. Qed.

(** [binade x] is the exponent of the largest power of two not above a
    positive [x]. *)
Lemma binade_le (x : Q) : (0 < x)%Q → (2 ^ binade x <= x)%Q.
Proof.
  intros Hx. unfold binade.
  destruct (Qle_bool _ x) eqn:Hle; [by apply Qle_bool_iff|].
  destruct x as [n d]. cbn [Qnum Qden] in *.
  assert (Hn : (0 < n)%Z).
  { unfold Qlt in Hx. cbn in Hx. lia. }
  destruct (Z.log2_spec n Hn) as [Hlo _].
  destruct (Z.log2_spec (Z.pos d) ltac:(lia)) as [_ Hhi].
  pose proof (Z.log2_nonneg n) as Ha. pose proof (Z.log2_nonneg (Z.pos d)) as Hb.
  set (a := Z.log2 n) in *. set (b := Z.log2 (Z.pos d)) in *.
  replace (a - b - 1)%Z with (a + - (Z.succ b))%Z by lia.
  rewrite pow2_plus, Qpower_opp, <- !pow2_inject by lia.
  set (A := (2 ^ a)%Z) in *. set (B := (2 ^ Z.succ b)%Z) in *.
  assert (HB : (0 < B)%Z) by lia.
  apply Qle_shift_div_r; [unfold Qlt, inject_Z; cbn [Qnum Qden]; lia|].
  unfold Qle, Qmult, inject_Z. cbn [Qnum Qden]. nia.
Qed.

Lemma binade_lt (x : Q) (c : Z) :
  (0 <= x)%Q → (0 <= c)%Z → (x < 2 ^ c)%Q → (binade x < c)%Z.
Proof.
  intros Hx Hc Hlt.
  destruct (Qlt_le_dec 0 x) as [Hpos | Hzero].
  - pose proof (binade_le x Hpos) as Hle.
    apply (Qpower_lt_compat_l_inv 2); [|reflexivity].
    by apply Qle_lt_trans with x.
  - unfold binade. destruct (Qle_bool _ x) eqn:Hle.
    + apply Qle_bool_iff in Hle.
      pose proof (pow2_pos (Z.log2 (Qnum x) - Z.log2 (Z.pos (Qden x)))) as Hp.
      lra.
    + assert (Hn : (Qnum x <= 0)%Z).
      { unfold Qle in Hzero. cbn in Hzero. lia. }
      rewrite (log2_nonpos _ Hn).
      pose proof (Z.log2_nonneg (Z.pos (Qden x))). lia.
Qed.

Lemma exponent_le (x : Q) (c : Z) :
  (0 <= c)%Z → (Qabs x < 2 ^ c)%Q → (exponent x <= c - 53)%Z.
Proof.
  intros Hc Hlt. unfold exponent.
  pose proof (binade_lt (Qabs x) c (Qabs_nonneg x) Hc Hlt). lia.
Qed.

Lemma round_double_between (E a b : Z) (x : Q) :
  (exponent x <= E)%Z →
  (inject_Z a * 2 ^ E <= x)%Q → (x <= inject_Z b * 2 ^ E)%Q →
  (inject_Z a * 2 ^ E <= round_double x)%Q ∧ (round_double x <= inject_Z b * 2 ^ E)%Q.
Proof.
  intros He Ha Hb. unfold round_double.
  rewrite (grid_refine a _ _ He), (grid_refine b _ _ He) in *.
  by apply round_at_between.
Qed.

Lemma round_double_error (E : Z) (x : Q) :
  (exponent x <= E)%Z → (Qabs (round_double x - x) <= 2 ^ E * (1 # 2))%Q.
Proof.
  intros He. unfold round_double.
  eapply Qle_trans; [apply round_at_error|].
  apply Qmult_le_compat_r; [|discriminate].
  by apply Qpower_le_compat_l.
Qed.

(** ** The busy loop of [simulate_load] *)

Lemma busy_spin_exits (env : Env) (start_time duration : Q) (n : nat) :
  ∀ (st : State) (fuel : nat),
    (∀ i : nat, (i < n)%nat → still_spinning env st start_time duration i = true) →
    still_spinning env st start_time duration n = false →
    (n < fuel)%nat →
    busy_spin fuel start_time duration env st = (Return tt, advance (S n) st).
Proof.
  induction n as [|n IH]; intros st fuel Hspin Hexit Hfuel.
  - destruct fuel as [|fuel]; [lia|].
    unfold still_spinning in Hexit. rewrite Nat.add_0_r in Hexit.
    cbn [busy_spin]. run_monad. rewrite Hexit.
    unfold advance. by rewrite Nat.add_1_r.
  - destruct fuel as [|fuel]; [lia|].
    pose proof (Hspin 0%nat ltac:(lia)) as H0.
    unfold still_spinning in H0. rewrite Nat.add_0_r in H0.
    cbn [busy_spin]. run_monad. rewrite H0.
    rewrite (IH (next_tick st) fuel).
    + unfold advance. cbn [registry tick g_start_time next_tick].
      by replace (S (tick st) + S n)%nat with (tick st + S (S n))%nat by lia.
    + intros i Hi. specialize (Hspin (S i) ltac:(lia)).
      unfold still_spinning in *. cbn [tick next_tick].
      by replace (S (tick st) + i)%nat with (tick st + S i)%nat by lia.
    + unfold still_spinning in *. cbn [tick next_tick].
      by replace (S (tick st) + n)%nat with (tick st + S n)%nat by lia.
    + lia.
Qed.

(** While the clock stays short of the deadline the loop does not end:
    any amount of fuel is used up. *)
Lemma busy_spin_needs_fuel (env : Env) (start_time duration : Q) (fuel : nat) :
  ∀ st : State,
    (∀ i : nat, (i < fuel)%nat → still_spinning env st start_time duration i = true) →
    fst (busy_spin fuel start_time duration env st) = OutOfFuel.
Proof.
  induction fuel as [|fuel IH]; intros st Hspin; [reflexivity|].
  pose proof (Hspin 0%nat ltac:(lia)) as H0.
  unfold still_spinning in H0. rewrite Nat.add_0_r in H0.
  cbn [busy_spin]. run_monad. rewrite H0. apply IH.
  intros i Hi. specialize (Hspin (S i) ltac:(lia)).
  unfold still_spinning in *. cbn [tick next_tick].
  by replace (S (tick st) + i)%nat with (tick st + S i)%nat by lia.
Qed.

Lemma first_false (p : nat → bool) (n : nat) :
  p n = false →
  ∃ m : nat, (m ≤ n)%nat ∧ p m = false ∧ ∀ i : nat, (i < m)%nat → p i = true.
Proof.
  intros Hn.
  assert (Hscan : ∀ k : nat,
            (∀ i : nat, (i < k)%nat → p i = true) ∨
            (∃ m : nat, (m < k)%nat ∧ p m = false ∧
                        ∀ i : nat, (i < m)%nat → p i = true)).
  { induction k as [|k [Hall | (m & Hm & Hpm & Hbelow)]].
    - left. intros i Hi. lia.
    - destruct (p k) eqn:Hpk.
      + left. intros i Hi. destruct (decide (i = k)) as [->|Hne]; [done|].
        apply Hall. lia.
      + right. exists k. split; [lia | done].
    - right. exists m. split; [lia | done]. }
  destruct (Hscan n) as [Hall | (m & Hm & Hpm & Hbelow)].
  - exists n. split; [lia | done].
  - exists m. split; [lia | done].
Qed.

(** The drawn duration lies in [0.5, 3.0] and is the affine image
    [0.5 + 2.5 * u] of the unit draw [u] up to the rounding of the two
    float operations. *)
Lemma drawn_duration_facts (env : Env) (st : State) :
  let u := unit_interval (next_draw env st) in
  (0.5 <= drawn_duration env st)%Q ∧ (drawn_duration env st <= 3.0)%Q ∧
  (Qabs (drawn_duration env st - (0.5 + 2.5 * u)) <= 1 # 2 ^ 51)%Q.
Proof.
  intros u. unfold drawn_duration. fold u.
  destruct (unit_interval_range (next_draw env st)) as [H0 H1]. fold u in H0, H1.
  clearbody u.
  assert (Hs : (round_double (3.0 - 0.5) == 5 # 2)%Q) by (vm_compute; reflexivity).
  set (s := round_double (3.0 - 0.5)) in *. clearbody s.
  set (x := (s * u)%Q).
  assert (Hx : (x == (5 # 2) * u)%Q) by (unfold x; by rewrite Hs).
  assert (Hx0 : (0 <= x)%Q) by (rewrite Hx; lra).
  assert (Hx1 : (x < 5 # 2)%Q) by (rewrite Hx; lra).
  assert (Hex : (exponent x <= -51)%Z).
  { apply (exponent_le x 2); [lia|]. rewrite (Qabs_pos _ Hx0).
    change (2 ^ 2)%Q with 4%Q. lra. }
  destruct (round_double_between (-1) 0 5 x) as [Hp0 Hp1]; [lia| | |].
  { change (inject_Z 0 * 2 ^ (-1))%Q with (0 * (1 # 2))%Q. lra. }
  { change (inject_Z 5 * 2 ^ (-1))%Q with (5 * (1 # 2))%Q. lra. }
  change (inject_Z 0 * 2 ^ (-1))%Q with (0 * (1 # 2))%Q in Hp0.
  change (inject_Z 5 * 2 ^ (-1))%Q with (5 * (1 # 2))%Q in Hp1.
  pose proof (round_double_error (-51) x Hex) as Hpe.
  set (p := round_double x) in *. clearbody p.
  set (y := (0.5 + p)%Q).
  assert (Hy0 : (0.5 <= y)%Q) by (unfold y; lra).
  assert (Hy1 : (y <= 3)%Q) by (unfold y; lra).
  assert (Hey : (exponent y <= -51)%Z).
  { apply (exponent_le y 2); [lia|]. rewrite Qabs_pos by lra.
    change (2 ^ 2)%Q with 4%Q. lra. }
  destruct (round_double_between (-1) 1 6 y) as [Hd0 Hd1]; [lia| | |].
  { change (inject_Z 1 * 2 ^ (-1))%Q with (1 * (1 # 2))%Q. lra. }
  { change (inject_Z 6 * 2 ^ (-1))%Q with (6 * (1 # 2))%Q. lra. }
  change (inject_Z 1 * 2 ^ (-1))%Q with (1 * (1 # 2))%Q in Hd0.
  change (inject_Z 6 * 2 ^ (-1))%Q with (6 * (1 # 2))%Q in Hd1.
  pose proof (round_double_error (-51) y Hey) as Hde.
  set (d := round_double y) in *. clearbody d.
  split; [lra|]. split; [lra|].
  change (2 ^ (-51) * (1 # 2))%Q with (1 # 2 ^ 52)%Q in Hpe, Hde.
  apply Qabs_Qle_condition in Hpe as [Hpe1 Hpe2].
  apply Qabs_Qle_condition in Hde as [Hde1 Hde2].
  apply Qabs_Qle_condition. unfold y in *.
  change (1 # 2 ^ 52)%Q with (1 # 4503599627370496)%Q in *.
  change (1 # 2 ^ 51)%Q with (1 # 2251799813685248)%Q.
  split; lra.
Qed.

Lemma drawn_duration_range (env : Env) (st : State) :
  (0.5 <= drawn_duration env st)%Q ∧ (drawn_duration env st <= 3.0)%Q.
Proof.
  destruct (drawn_duration_facts env st) as (Hlo & Hhi & _). by split.
Qed.

(** ** The request-timing hooks *)









(** ** The error-simulation endpoint *)

(** C2: [simulate_error] always returns a response; with [u] its one draw
    from [0, 1): if [u < 0.2] the status is 500 and the "server_error"
    series of the error Counter goes up by one (and no other series
    changes); else if [u < 0.3] the status is 400 and the "client_error"
    series goes up by one (and no other changes); else the status is 200
    and the body carries an integer of [1, 100] under "value". *)
Theorem simulate_error_branches (env : Env) (st : State) :
  let u := unit_interval (next_draw env st) in
  ∃ response st',
    simulate_error env st = (Return response, st') ∧
    (0 <= u)%Q ∧ (u < 1)%Q ∧
    ((u < 0.2)%Q →
       status_code response = 500%Z ∧
       error_count st' "server_error" = S (error_count st "server_error") ∧
       ∀ k, k ≠ "server_error" → error_count st' k = error_count st k) ∧
    (¬ (u < 0.2)%Q → (u < 0.3)%Q →
       status_code response = 400%Z ∧
       error_count st' "client_error" = S (error_count st "client_error") ∧
       ∀ k, k ≠ "client_error" → error_count st' k = error_count st k) ∧
    (¬ (u < 0.3)%Q →
       status_code response = 200%Z ∧
       ∃ value, field response "value" = Some (JInt value) ∧ (1 <= value <= 100)%Z).
Proof.
  intros u. subst u. unfold next_draw.
  destruct (unit_interval_range (entropy env (tick st))) as [H0 H1].
  unfold simulate_error. run_monad.
  set (u := unit_interval (entropy env (tick st))) in *.
  assert (H23 : (0.2 < 0.3)%Q) by reflexivity.
  destruct (Qltb u 0.2) eqn:Hs.
  - apply Qltb_lt in Hs. eexists _, _. split; [reflexivity|].
    split; [done|]. split; [done|]. split; [|split].
    + intros _. split; [reflexivity|]. split; [apply counter_value_inc|].
      intros k Hk. by apply counter_value_inc_ne.
    + intros Hn. by destruct Hn.
    + intros Hn. destruct Hn. by apply Qlt_trans with 0.2%Q.
  - apply Qltb_ge in Hs. apply Qle_not_lt in Hs.
    destruct (Qltb u 0.3) eqn:Hc.
    + apply Qltb_lt in Hc. eexists _, _. split; [reflexivity|].
      split; [done|]. split; [done|]. split; [|split].
      * intros Hlt. by destruct Hs.
      * intros _ _. split; [reflexivity|]. split; [apply counter_value_inc|].
        intros k Hk. by apply counter_value_inc_ne.
      * intros Hn. by destruct Hn.
    + apply Qltb_ge in Hc. apply Qle_not_lt in Hc.
      eexists _, _. split; [reflexivity|].
      split; [done|]. split; [done|]. split; [|split].
      * intros Hlt. by destruct Hs.
      * intros _ Hlt. by destruct Hc.
      * intros _. split; [reflexivity|].
        eexists. split; [reflexivity|]. by apply in_range_bounds.
Qed.

Lemma simulate_error_branches_witness :
  (∃ response st',
     simulate_error (steady_env 0 10 10 12) idle_state = (Return response, st') ∧
     status_code response = 500%Z ∧ error_count st' "server_error" = 1%nat) ∧
  (∃ response st',
     simulate_error (steady_env 2251799813685248 10 10 12) idle_state
       = (Return response, st') ∧
     status_code response = 400%Z ∧ error_count st' "client_error" = 1%nat) ∧
  (∃ response st' value,
     simulate_error (steady_env 4503599627370496 10 10 12) idle_state
       = (Return response, st') ∧
     status_code response = 200%Z ∧ field response "value" = Some (JInt value) ∧
     (1 <= value <= 100)%Z).
Proof.
  split; [|split].
  - destruct (simulate_error_branches (steady_env 0 10 10 12) idle_state)
      as (r & st' & Hrun & _ & _ & Hs & _ & _).
    exists r, st'. split; [exact Hrun|].
    destruct Hs as (H500 & Hinc & _); [reflexivity|].
    split; [exact H500 | exact Hinc].
  - destruct (simulate_error_branches
                (steady_env 2251799813685248 10 10 12) idle_state)
      as (r & st' & Hrun & _ & _ & _ & Hc & _).
    exists r, st'. split; [exact Hrun|].
    destruct Hc as (H400 & Hinc & _); [by vm_compute | reflexivity |].
    split; [exact H400 | exact Hinc].
  - destruct (simulate_error_branches
                (steady_env 4503599627370496 10 10 12) idle_state)
      as (r & st' & Hrun & _ & _ & _ & _ & Hok).
    destruct Hok as (H200 & value & Hfield & Hrange); [by vm_compute|].
    exists r, st', value. repeat split; try done; lia.
Defined.

(** C10: when the draw of [simulate_error] is at least 0.3 the handler
    returns a 200 response and leaves every instrument as it was: the
    registry after the call equals the registry before it, so every series
    of the error Counter and the active-users Gauge keep their values. *)
Theorem simulate_error_success_frame (env : Env) (st : State) :
  (0.3 <= unit_interval (next_draw env st))%Q →
  ∃ response st',
    simulate_error env st = (Return response, st') ∧
    status_code response = 200%Z ∧
    registry st' = registry st ∧
    (∀ k, error_count st' k = error_count st k) ∧
    ACTIVE_USERS (registry st') = ACTIVE_USERS (registry st).
Proof.
  unfold next_draw. intros Hge.
  assert (H23 : (0.2 <= 0.3)%Q) by discriminate.
  assert (Hs : Qltb (unit_interval (entropy env (tick st))) 0.2 = false).
  { apply Qltb_ge. by apply Qle_trans with 0.3%Q. }
  assert (Hc : Qltb (unit_interval (entropy env (tick st))) 0.3 = false).
  { by apply Qltb_ge. }
  unfold simulate_error. run_monad. rewrite Hs, Hc.
  eexists _, _. split; [reflexivity|]. repeat split.
Qed.

Lemma simulate_error_success_frame_witness :
  let env := steady_env 4503599627370496 10 10 12 in
  (0.3 <= unit_interval (next_draw env idle_state))%Q ∧
  ∃ response st',
    simulate_error env idle_state = (Return response, st') ∧
    status_code response = 200%Z ∧
    registry st' = registry idle_state.
Proof.
  intros env.
  assert (H : (0.3 <= unit_interval (next_draw env idle_state))%Q)
    by (by vm_compute).
  split; [exact H|].
  destruct (simulate_error_success_frame env idle_state H)
    as (response & st' & Hrun & H200 & Hreg & _).
  exists response, st'. split; [exact Hrun|]. split; [exact H200 | exact Hreg].
Defined.

(** ** The health endpoint *)

(** C3: when the stat source delivers both readings, [health] answers 200
    and changes no instrument; the status is "degraded" when cpu > 90 or
    mem > 90, and then the warnings list holds "High CPU usage" iff
    cpu > 90 and "High memory usage" iff mem > 90, holds nothing else and
    holds nothing twice; otherwise the status is "healthy" and the body
    has no warnings entry. *)
Theorem health_thresholds (env : Env) (st : State) (cpu mem : Q) :
  cpu_reading env 1 (tick st) = Got cpu →
  memory_reading env (S (tick st)) = Got mem →
  ∃ health_data st',
    health env st = (Return (jsonify health_data), st') ∧
    registry st' = registry st ∧
    ((90 < cpu)%Q ∨ (90 < mem)%Q →
       dict_get health_data "status" = Some (JStr "degraded") ∧
       ∃ warnings,
         dict_get health_data "warnings" = Some (JList warnings) ∧
         (JStr "High CPU usage" ∈ warnings ↔ (90 < cpu)%Q) ∧
         (JStr "High memory usage" ∈ warnings ↔ (90 < mem)%Q) ∧
         (∀ w, w ∈ warnings →
               w = JStr "High CPU usage" ∨ w = JStr "High memory usage") ∧
         NoDup warnings) ∧
    (¬ ((90 < cpu)%Q ∨ (90 < mem)%Q) →
       dict_get health_data "status" = Some (JStr "healthy") ∧
       dict_get health_data "warnings" = None).
Proof.
  intros Hcpu Hmem.
  unfold health. run_monad. rewrite Hcpu. run_monad. rewrite Hmem.
  unfold Qgtb.
  destruct (Qltb 90 cpu) eqn:Hc; destruct (Qltb 90 mem) eqn:Hm;
    cbn [orb]; run_monad; unfold warnings_append; simpl; run_monad;
    [apply Qltb_lt in Hc; apply Qltb_lt in Hm
    |apply Qltb_lt in Hc; apply Qltb_ge, Qle_not_lt in Hm
    |apply Qltb_ge, Qle_not_lt in Hc; apply Qltb_lt in Hm
    |apply Qltb_ge, Qle_not_lt in Hc; apply Qltb_ge, Qle_not_lt in Hm].
  all: eexists _, _; (split; [reflexivity|]); (split; [reflexivity|]).
  all: split; [intros Hdeg | intros Hok].
  all: try (exfalso; tauto).
  all: try (split; reflexivity).
  all: split; [reflexivity|]; eexists; (split; [reflexivity|]).
  all: rewrite ?NoDup_cons, ?NoDup_nil.
  all: repeat setoid_rewrite elem_of_cons; repeat setoid_rewrite elem_of_nil.
  all: repeat split; try tauto; try (intros; intuition congruence).
Qed.

Lemma health_thresholds_witness :
  (∃ health_data st',
     health (steady_env 0 95 50 12) idle_state = (Return (jsonify health_data), st') ∧
     dict_get health_data "status" = Some (JStr "degraded") ∧
     dict_get health_data "warnings" = Some (JList [JStr "High CPU usage"])) ∧
  (∃ health_data st',
     health (steady_env 0 50 50 12) idle_state = (Return (jsonify health_data), st') ∧
     dict_get health_data "status" = Some (JStr "healthy") ∧
     dict_get health_data "warnings" = None).
Proof.
  split.
  - destruct (health_thresholds (steady_env 0 95 50 12) idle_state 95 50
                eq_refl eq_refl)
      as (d & st' & Hrun & _ & Hdeg & _).
    exists d, st'. split; [exact Hrun|].
    destruct Hdeg as (Hstatus & _); [left; reflexivity|].
    split; [exact Hstatus|].
    injection Hrun as Hd _. subst d. reflexivity.
  - destruct (health_thresholds (steady_env 0 50 50 12) idle_state 50 50
                eq_refl eq_refl)
      as (d & st' & Hrun & _ & _ & Hok).
    exists d, st'. split; [exact Hrun|].
    apply Hok. intros [H | H]; vm_compute in H; discriminate.
Defined.

(** C4: when the stat source fails (at the CPU reading, or at the memory
    reading after a CPU reading that succeeded), [health] answers 500 with
    status "unhealthy" and the failure message, the "health_check" series
    of the error Counter goes up by one, and every other error series and
    every other instrument keep their values. *)
Theorem health_stat_failure (env : Env) (st : State) (e : exn) :
  cpu_reading env 1 (tick st) = Failed e ∨
  ((∃ cpu, cpu_reading env 1 (tick st) = Got cpu) ∧
   memory_reading env (S (tick st)) = Failed e) →
  ∃ st',
    health env st
      = (Return (with_status
                   (jsonify [("status", JStr "unhealthy"); ("error", JStr (str e))])
                   500), st') ∧
    error_count st' "health_check" = S (error_count st "health_check") ∧
    (∀ k, k ≠ "health_check" → error_count st' k = error_count st k) ∧
    instruments_but_errors_unchanged st st'.
Proof.
  intros [Hcpu | [[cpu Hcpu] Hmem]];
    unfold health; run_monad; rewrite Hcpu; run_monad; [|rewrite Hmem];
    (eexists; split; [reflexivity|]);
    (split; [apply counter_value_inc|]);
    (split; [intros k Hk; by apply counter_value_inc_ne|]);
    repeat split.
Qed.

Lemma health_stat_failure_witness :
  ∃ st',
    health stat_down_env idle_state
      = (Return (with_status
                   (jsonify [("status", JStr "unhealthy");
                             ("error", JStr "stat source unavailable")])
                   500), st') ∧
    error_count st' "health_check" = 1%nat.
Proof.
  destruct (health_stat_failure stat_down_env idle_state
              (Exception "stat source unavailable"))
    as (st' & Hrun & Hcount & _).
  - left. reflexivity.
  - exists st'. split; [exact Hrun | exact Hcount].
Defined.

(** ** The load-simulation endpoint *)

(** C5 (as the code has it): [simulate_load] draws its duration as
    [random.uniform(0.5, 3.0)]: a double of [0.5, 3.0] that is the image
    [0.5 + 2.5 * u] of the generator's uniform unit draw [u] up to the
    rounding of the float operations.  If the elapsed time the loop
    computes ever reaches the duration, the busy loop ends at the first
    reading [m] at which it does (at every earlier reading it was short of
    it), and with enough fuel for those readings the handler returns a 200
    response whose "duration" field is the drawn duration printed with two
    decimals and an "s" -- not the time that elapsed -- after setting the
    active-users Gauge to an integer of [20, 100] and changing no other
    instrument. *)
Theorem simulate_load_reports_drawn_duration (env : Env) (st : State) (n : nat) :
  let duration := drawn_duration env st in
  (duration <= spin_elapsed env st n)%Q →
  (0.5 <= duration)%Q ∧ (duration <= 3.0)%Q ∧
  (Qabs (duration - (0.5 + 2.5 * unit_interval (next_draw env st))) <= 1 # 2 ^ 51)%Q ∧
  ∃ m : nat,
    (m ≤ n)%nat ∧
    (∀ i : nat, (i < m)%nat → (spin_elapsed env st i < duration)%Q) ∧
    (duration <= spin_elapsed env st m)%Q ∧
    ∀ fuel : nat, (m < fuel)%nat →
      ∃ users timestamp st',
        simulate_load fuel env st
          = (Return (jsonify [("message", JStr "Load simulation completed");
                              ("duration", JStr (format_2f duration +:+ "s"));
                              ("timestamp", JFloat timestamp)]), st') ∧
        users = in_range 20 100 (entropy env (S (S (S (tick st))) + m)) ∧
        (20 <= users <= 100)%Z ∧
        ACTIVE_USERS (registry st') = inject_Z users ∧
        REQUEST_COUNT (registry st') = REQUEST_COUNT (registry st) ∧
        REQUEST_LATENCY (registry st') = REQUEST_LATENCY (registry st) ∧
        SYSTEM_CPU (registry st') = SYSTEM_CPU (registry st) ∧
        SYSTEM_MEMORY (registry st') = SYSTEM_MEMORY (registry st) ∧
        ERROR_COUNT (registry st') = ERROR_COUNT (registry st).
Proof.
  intros duration Hreach.
  destruct (drawn_duration_facts env st) as (Hlo & Hhi & Haffine).
  split; [exact Hlo|]. split; [exact Hhi|]. split; [exact Haffine|].
  set (st2 := next_tick (next_tick st)).
  set (start_time := clock_reading env (S (tick st))).
  assert (Hlink : ∀ i : nat,
            still_spinning env st2 start_time duration i = true
            ↔ (spin_elapsed env st i < duration)%Q).
  { intros i. unfold still_spinning. rewrite Qltb_lt. reflexivity. }
  assert (Hn : still_spinning env st2 start_time duration n = false).
  { destruct (still_spinning env st2 start_time duration n) eqn:Hs; [|done].
    apply Hlink in Hs. by apply Qlt_not_le in Hs. }
  destruct (first_false _ n Hn) as (m & Hm & Hexit & Hbelow).
  exists m. split; [exact Hm|].
  split; [intros i Hi; by apply Hlink, Hbelow|].
  split.
  { unfold still_spinning in Hexit. by apply Qltb_ge in Hexit. }
  intros fuel Hfuel.
  unfold simulate_load. run_monad.
  fold (next_draw env st). fold (drawn_duration env st). fold duration.
  change (next_tick (next_tick st)) with st2. fold start_time.
  rewrite (busy_spin_exits env start_time duration m st2 fuel Hbelow Hexit Hfuel).
  cbn [advance registry tick g_start_time next_tick st2].
  replace (S (S (tick st)) + S m)%nat with (S (S (S (tick st))) + m)%nat by lia.
  eexists _, _, _. split; [reflexivity|].
  split; [reflexivity|].
  split; [by apply in_range_bounds|].
  repeat split.
Qed.

Lemma simulate_load_reports_drawn_duration_witness :
  let env := steady_env 0 10 10 12 in
  (drawn_duration env idle_state <= spin_elapsed env idle_state 0)%Q ∧
  ∃ timestamp st',
    simulate_load 1 env idle_state
      = (Return (jsonify [("message", JStr "Load simulation completed");
                          ("duration", JStr "0.50s");
                          ("timestamp", JFloat timestamp)]), st') ∧
    ACTIVE_USERS (registry st') = 20%Q.
Proof.
  intros env.
  assert (Hreach : (drawn_duration env idle_state <= spin_elapsed env idle_state 0)%Q)
    by (by vm_compute).
  split; [exact Hreach|].
  destruct (simulate_load_reports_drawn_duration env idle_state 0 Hreach)
    as (_ & _ & _ & m & Hm & _ & _ & Hrun).
  assert (m = 0%nat) as -> by lia.
  destruct (Hrun 1%nat ltac:(lia))
    as (users & timestamp & st' & Hload & Husers & _ & Hgauge & _).
  exists timestamp, st'. split.
  - rewrite Hload. reflexivity.
  - rewrite Hgauge, Husers. reflexivity.
Defined.

(** C5 (as stated) fails: with 0.375 s between clock readings the loop
    entered for a drawn duration of 0.5 s ends after 0.75 s, and the
    response still says "0.50s". *)
Lemma simulate_load_reports_draw_not_elapsed :
  let env := slow_reader_env in
  let run := simulate_load 2 env idle_state in
  let elapsed := spin_elapsed env idle_state 1 in
  (∃ response,
     fst run = Return response ∧
     field response "duration" = Some (JStr "0.50s")) ∧
  (drawn_duration env idle_state == 0.5)%Q ∧
  (spin_elapsed env idle_state 0 < drawn_duration env idle_state)%Q ∧
  (elapsed == 0.75)%Q ∧
  format_2f elapsed +:+ "s" = "0.75s" ∧
  format_2f elapsed +:+ "s" ≠ "0.50s".
Proof.
  intros env run elapsed. split.
  - eexists. split; vm_compute; reflexivity.
  - split; [by vm_compute|]. split; [by vm_compute|].
    split; [by vm_compute|]. split; [vm_compute; reflexivity|].
    vm_compute. discriminate.
Qed.

(** ** The user-activity endpoint *)

(** C6: [user_activity] always returns a 200 response carrying the users
    value and the hour it read; with [h] that hour, the users value is the
    generator's pick from [30, 80] when 9 <= h <= 17 and its pick from
    [5, 25] otherwise; the active-users Gauge is set to that value and no
    other instrument changes. *)
Theorem user_activity_spec (env : Env) (st : State) :
  let hour := local_hour env (tick st) in
  let raw := entropy env (S (tick st)) in
  ∃ users timestamp st',
    user_activity env st
      = (Return (jsonify [("active_users", JInt users); ("hour", JInt hour);
                          ("timestamp", JFloat timestamp)]), st') ∧
    ((9 <= hour <= 17)%Z → users = in_range 30 80 raw ∧ (30 <= users <= 80)%Z) ∧
    (¬ (9 <= hour <= 17)%Z → users = in_range 5 25 raw ∧ (5 <= users <= 25)%Z) ∧
    ACTIVE_USERS (registry st') = inject_Z users ∧
    REQUEST_COUNT (registry st') = REQUEST_COUNT (registry st) ∧
    REQUEST_LATENCY (registry st') = REQUEST_LATENCY (registry st) ∧
    SYSTEM_CPU (registry st') = SYSTEM_CPU (registry st) ∧
    SYSTEM_MEMORY (registry st') = SYSTEM_MEMORY (registry st) ∧
    ERROR_COUNT (registry st') = ERROR_COUNT (registry st).
Proof.
  intros hour raw. subst hour raw.
  unfold user_activity. run_monad.
  destruct ((9 <=? local_hour env (tick st))%Z && (local_hour env (tick st) <=? 17)%Z)
    eqn:Hh; run_monad.
  - apply andb_true_iff in Hh as [H9 H17].
    apply Z.leb_le in H9, H17.
    eexists _, _, _. split; [reflexivity|].
    split; [intros _; split; [reflexivity | by apply in_range_bounds]|].
    split; [intros Hn; destruct Hn; lia|].
    repeat split.
  - apply andb_false_iff in Hh.
    eexists _, _, _. split; [reflexivity|].
    split; [intros [H9 H17]; destruct Hh as [Hh|Hh]; apply Z.leb_gt in Hh; lia|].
    split; [intros _; split; [reflexivity | by apply in_range_bounds]|].
    repeat split.
Qed.

Lemma user_activity_spec_witness :
  (∃ users timestamp st',
     user_activity (steady_env 7 10 10 12) idle_state
       = (Return (jsonify [("active_users", JInt users); ("hour", JInt 12);
                           ("timestamp", JFloat timestamp)]), st') ∧
     users = 37%Z ∧ ACTIVE_USERS (registry st') = 37%Q) ∧
  (∃ users timestamp st',
     user_activity (steady_env 7 10 10 20) idle_state
       = (Return (jsonify [("active_users", JInt users); ("hour", JInt 20);
                           ("timestamp", JFloat timestamp)]), st') ∧
     users = 12%Z ∧ ACTIVE_USERS (registry st') = 12%Q).
Proof.
  split.
  - destruct (user_activity_spec (steady_env 7 10 10 12) idle_state)
      as (users & timestamp & st' & Hrun & Hday & _ & Hgauge & _).
    destruct Hday as [Husers _]; [cbn; lia|].
    exists users, timestamp, st'. split; [exact Hrun|].
    split; [by rewrite Husers | by rewrite Hgauge, Husers].
  - destruct (user_activity_spec (steady_env 7 10 10 20) idle_state)
      as (users & timestamp & st' & Hrun & _ & Hnight & Hgauge & _).
    destruct Hnight as [Husers _]; [cbn; lia|].
    exists users, timestamp, st'. split; [exact Hrun|].
    split; [by rewrite Husers | by rewrite Hgauge, Husers].
Defined.

(** ** The exposition endpoint *)

(** C7: when both stat readings and the serializer succeed, [metrics]
    sets the CPU and memory Gauges to the readings and answers 200 with
    the text the serializer produces for the instruments as they are after
    both updates, changing no other instrument; when any of these steps
    fails, it answers 500 with the fallback body and the "metrics_error"
    series of the error Counter goes up by one (no other error series
    changes). *)
Theorem metrics_paths (env : Env) (st : State) :
  (∀ cpu mem text,
     cpu_reading env 0.1 (tick st) = Got cpu →
     memory_reading env (S (tick st)) = Got mem →
     latest_text env (set_SYSTEM_MEMORY mem (set_SYSTEM_CPU cpu (registry st)))
       = Got text →
     ∃ st',
       metrics env st
         = (Return {| body := TextBody text; status_code := 200;
                      mimetype := CONTENT_TYPE_LATEST |}, st') ∧
       SYSTEM_CPU (registry st') = cpu ∧
       SYSTEM_MEMORY (registry st') = mem ∧
       latest_text env (registry st') = Got text ∧
       REQUEST_COUNT (registry st') = REQUEST_COUNT (registry st) ∧
       REQUEST_LATENCY (registry st') = REQUEST_LATENCY (registry st) ∧
       ACTIVE_USERS (registry st') = ACTIVE_USERS (registry st) ∧
       ERROR_COUNT (registry st') = ERROR_COUNT (registry st)) ∧
  (∀ e,
     metrics_failure env st e →
     ∃ st',
       metrics env st = (Return metrics_fallback, st') ∧
       status_code metrics_fallback = 500%Z ∧
       error_count st' "metrics_error" = S (error_count st "metrics_error") ∧
       (∀ k, k ≠ "metrics_error" → error_count st' k = error_count st k)).
Proof.
  split.
  - intros cpu mem text Hcpu Hmem Htext.
    unfold metrics. run_monad. rewrite Hcpu. run_monad. rewrite Hmem.
    run_monad. rewrite Htext.
    eexists. split; [reflexivity|]. cbn. by rewrite Htext.
  - intros e [Hcpu | [(cpu & Hcpu & Hmem) | (cpu & mem & Hcpu & Hmem & Htext)]];
      unfold metrics; run_monad; rewrite Hcpu; run_monad;
      [| rewrite Hmem | rewrite Hmem; run_monad; rewrite Htext];
      (eexists; split; [reflexivity|]);
      (split; [reflexivity|]);
      (split; [apply counter_value_inc | intros k Hk; by apply counter_value_inc_ne]).
Qed.

Lemma metrics_paths_witness :
  (∃ st',
     metrics (steady_env 0 42 58 12) idle_state
       = (Return {| body := TextBody "# HELP app_requests_total Total number of requests";
                    status_code := 200; mimetype := CONTENT_TYPE_LATEST |}, st') ∧
     SYSTEM_CPU (registry st') = 42%Q ∧ SYSTEM_MEMORY (registry st') = 58%Q) ∧
  (∃ st',
     metrics stat_down_env idle_state = (Return metrics_fallback, st') ∧
     error_count st' "metrics_error" = 1%nat).
Proof.
  split.
  - destruct (metrics_paths (steady_env 0 42 58 12) idle_state) as [Hok _].
    destruct (Hok 42%Q 58%Q _ eq_refl eq_refl eq_refl)
      as (st' & Hrun & Hcpu & Hmem & _).
    exists st'. split; [exact Hrun|]. split; [exact Hcpu | exact Hmem].
  - destruct (metrics_paths stat_down_env idle_state) as [_ Hfail].
    destruct (Hfail (Exception "stat source unavailable"))
      as (st' & Hrun & _ & Hcount & _).
    + left. reflexivity.
    + exists st'. split; [exact Hrun | exact Hcount].
Defined.

(** ** The application as a whole *)

(** The busy loop reads the clock and nothing else: it ends normally or
    runs out of fuel, and only the tick counter moves. *)
Lemma busy_spin_frame (env : Env) (start_time duration : Q) (fuel : nat) :
  ∀ st : State,
    let run := busy_spin fuel start_time duration env st in
    (fst run = Return tt ∨ fst run = OutOfFuel) ∧
    registry (snd run) = registry st ∧
    g_start_time (snd run) = g_start_time st.
Proof.
  induction fuel as [|fuel IH]; intros st.
  - cbn. auto.
  - cbn [busy_spin]. run_monad.
    destruct (Qltb (round_double (clock_reading env (tick st) - start_time)) duration).
    + destruct (IH (next_tick st)) as (Hout & Hreg & Hg). auto.
    + cbn [fst snd registry g_start_time next_tick]. auto.
Qed.

Lemma users_in_range_set (st : State) (a b : Z) (raw : N) :
  ACTIVE_USERS (registry st) = inject_Z (in_range a b raw) →
  ((5 <=? a)%Z && (a <=? b)%Z && (b <=? 100)%Z = true) →
  users_in_range st.
Proof.
  intros Hset Hab. apply andb_true_iff in Hab as [Hab Hb].
  apply andb_true_iff in Hab as [Ha Hab].
  apply Z.leb_le in Ha, Hab, Hb.
  exists (in_range a b raw). split; [exact Hset|].
  pose proof (in_range_bounds a b raw Hab). lia.
Qed.

Lemma at_most_one_error_refl (st st' : State) :
  ERROR_COUNT (registry st') = ERROR_COUNT (registry st) → at_most_one_error st st'.
Proof. by left. Qed.

Lemma at_most_one_error_inc (st st' : State) (k : string) :
  ERROR_COUNT (registry st') = counter_inc k (ERROR_COUNT (registry st)) →
  at_most_one_error st st'.
Proof. right. by exists k. Qed.

Ltac frame_done :=
  cbn [fst snd registry tick g_start_time next_tick REQUEST_COUNT REQUEST_LATENCY
       ACTIVE_USERS ERROR_COUNT inc_ERROR_COUNT set_ACTIVE_USERS set_SYSTEM_CPU
       set_SYSTEM_MEMORY];
  repeat split;
  first [ done
        | by apply at_most_one_error_refl
        | by eapply at_most_one_error_inc
        | by (intros _; eapply users_in_range_set; reflexivity)
        | idtac ].

Lemma home_well_behaved : well_behaved home.
Proof. intros env st. unfold home. run_monad. frame_done. Qed.

Lemma not_found_well_behaved : well_behaved (ret NotFound).
Proof. intros env st. run_monad. frame_done. Qed.

Lemma simulate_error_well_behaved : well_behaved simulate_error.
Proof.
  intros env st. unfold simulate_error. run_monad.
  destruct (Qltb _ 0.2); [|destruct (Qltb _ 0.3)]; frame_done.
Qed.

Lemma user_activity_well_behaved : well_behaved user_activity.
Proof.
  intros env st. unfold user_activity. run_monad.
  destruct (_ && _); run_monad; frame_done.
Qed.

Lemma metrics_well_behaved : well_behaved metrics.
Proof.
  intros env st. unfold metrics. run_monad.
  destruct (cpu_reading env 0.1 (tick st)); run_monad; [|frame_done].
  destruct (memory_reading env (S (tick st))); run_monad; [|frame_done].
  destruct (latest_text env _); frame_done.
Qed.

Lemma health_well_behaved : well_behaved health.
Proof.
  intros env st. unfold health. run_monad.
  destruct (cpu_reading env 1 (tick st)); run_monad; [|frame_done].
  destruct (memory_reading env (S (tick st))); run_monad; [|frame_done].
  unfold Qgtb.
  destruct (Qltb 90 _); destruct (Qltb 90 _);
    cbn [orb]; run_monad; unfold warnings_append; simpl; run_monad; frame_done.
Qed.

Lemma simulate_load_well_behaved (fuel : nat) : well_behaved (simulate_load fuel).
Proof.
  intros env st. unfold simulate_load. run_monad.
  fold (next_draw env st). fold (drawn_duration env st).
  set (duration := drawn_duration env st).
  set (start_time := clock_reading env (S (tick st))).
  destruct (busy_spin_frame env start_time duration fuel (next_tick (next_tick st)))
    as (Hout & Hreg & Hg).
  destruct (busy_spin fuel start_time duration env (next_tick (next_tick st)))
    as [out st2].
  cbn [fst snd] in *.
  destruct Hout as [-> | ->]; cbn [registry tick g_start_time next_tick] in *;
    cbv zeta; cbn [fst snd registry tick g_start_time next_tick REQUEST_COUNT
                   REQUEST_LATENCY ACTIVE_USERS ERROR_COUNT set_ACTIVE_USERS];
    rewrite ?Hreg, ?Hg; frame_done.
  - left. by rewrite Hreg.
  - unfold users_in_range. by rewrite Hreg.
Qed.

(** Every registered view is well behaved. *)
Lemma view_functions_well_behaved (fuel : nat) (name : string) (view : M Response) :
  view_functions fuel name = Some view → well_behaved view.
Proof.
  unfold view_functions. intros Hview.
  repeat case_decide; simplify_eq;
    auto using home_well_behaved, health_well_behaved, simulate_load_well_behaved,
      simulate_error_well_behaved, user_activity_well_behaved, metrics_well_behaved.
Qed.

Lemma dispatch_request_well_behaved (fuel : nat) (request : Request) :
  well_behaved (dispatch_request fuel request).
Proof.
  unfold dispatch_request.
  destruct (endpoint request) as [name|]; [|apply not_found_well_behaved].
  destruct (view_functions fuel name) as [view|] eqn:Hview;
    [by eapply view_functions_well_behaved | apply not_found_well_behaved].
Qed.


Section Totals.
Context `{Countable K} {V : Type} (w : V → nat).

Lemma weight_total_insert (m : gmap K V) (k : K) (v : V) :
  (map_fold (λ _ v acc, (w v + acc)%nat) 0%nat (<[k:=v]> m)
     + from_option w 0%nat (m !! k)
   = w v + map_fold (λ _ v acc, (w v + acc)%nat) 0%nat m)%nat.
Proof.
  destruct (m !! k) as [old|] eqn:Hk; cbn [from_option].
  - rewrite <- insert_delete_eq.
    rewrite map_fold_insert_L; [|intros; lia | apply lookup_delete_eq].
    rewrite (map_fold_delete_L _ _ k old m); [lia | intros; lia | exact Hk].
  - rewrite map_fold_insert_L; [lia | intros; lia | exact Hk].
Qed.
End Totals.

Lemma counter_total_inc `{Countable K} (c : gmap K nat) (k : K) :
  counter_total (counter_inc k c) = S (counter_total c).
Proof.
  unfold counter_total, counter_inc, counter_value.
  pose proof (weight_total_insert (λ v : nat, v) c k (S (default 0%nat (c !! k)))) as Hw.
  cbn beta in Hw. destruct (c !! k); cbn [default from_option] in *; unfold id in *; lia.
Qed.

Lemma observation_total_observe (h : gmap string (list Q)) (label : string) (v : Q) :
  observation_total (histogram_observe label v h) = S (observation_total h).
Proof.
  unfold observation_total, histogram_observe, observations.
  pose proof (weight_total_insert (λ l : list Q, length l) h label
                (v :: default [] (h !! label))) as Hw.
  cbn beta in Hw.
  destruct (h !! label); cbn [default from_option length] in *; unfold id in *; lia.
Qed.

(** What one request does, for a well-behaved view: either the view runs
    out of fuel and the request does not complete, or the response of the
    view is returned and the two request instruments record it. *)
Lemma handle_request_outcome (env : Env) (st : State) (request : Request)
    (view : M Response) :
  well_behaved view →
  let run0 := view env (started env st) in
  let run := handle_request request view env st in
  (fst run0 = OutOfFuel ∧ run = (OutOfFuel, snd run0)) ∨
  (∃ response,
     fst run0 = Return response ∧
     run = (Return response,
            {| registry :=
                 observe_REQUEST_LATENCY (or_unknown (endpoint request))
                   (clock_reading env (tick (snd run0)) - clock_reading env (tick st))
                   (inc_REQUEST_COUNT
                      (method request, or_unknown (endpoint request),
                       status_code response)
                      (registry (snd run0)));
               tick := S (tick (snd run0));
               g_start_time := Some (clock_reading env (tick st)) |})).
Proof.
  intros Hview. cbv zeta.
  destruct (Hview env (started env st)) as (Hnoraise & Hg & _).
  unfold handle_request, bind. rewrite before_request_run.
  unfold try_except, ret.
  destruct (view env (started env st)) as [[response | e |] st1];
    cbn [fst snd started g_start_time] in *.
  - right. exists response. split; [reflexivity|].
    by rewrite (after_request_run _ _ _ _ _ Hg).
  - by destruct (Hnoraise e).
  - left. done.
Qed.

(** X1: when [flask.g.start_time] was never set, [after_request] raises
    on reading it and records nothing: no instrument changes. *)
Theorem after_request_without_start_time (env : Env) (st : State)
    (request : Request) (response : Response) :
  g_start_time st = None →
  let run := after_request request response env st in
  (∃ e, fst run = Raise e) ∧
  registry (snd run) = registry st.
Proof.
  intros Hg. unfold after_request. run_monad. rewrite Hg.
  split; [eexists|]; reflexivity.
Qed.

Lemma after_request_without_start_time_witness :
  let run := after_request get_unrouted NotFound (steady_env 0 10 10 12) idle_state in
  (∃ e, fst run = Raise e) ∧ registry (snd run) = registry idle_state.
Proof.
  exact (after_request_without_start_time (steady_env 0 10 10 12) idle_state
           get_unrouted NotFound eq_refl).
Defined.

Lemma serve_get_frame (fuel : nat) (path : string) (env : Env) (st : State) :
  let run := serve_get fuel path env st in
  (∀ e, fst run ≠ Raise e) ∧
  at_most_one_error st (snd run) ∧
  (users_in_range st → users_in_range (snd run)).
Proof.
  cbv zeta. unfold serve_get.
  set (request := {| method := "GET"; endpoint := url_map path |}).
  pose proof (dispatch_request_well_behaved fuel request) as Hview.
  destruct (Hview env (started env st)) as (_ & _ & _ & _ & Herr & Husers).
  destruct (handle_request_outcome env st request _ Hview)
    as [[_ ->] | (r & _ & ->)]; cbn [fst snd].
  - split; [done|]. split; [exact Herr | exact Husers].
  - split; [done|]. split; [exact Herr | exact Husers].
Qed.

Lemma at_most_one_error_bounds (st st' : State) :
  at_most_one_error st st' →
  ∀ k, (error_count st k ≤ error_count st' k ≤ S (error_count st k))%nat.
Proof.
  unfold error_count. intros [-> | [label ->]] k; [lia|].
  destruct (decide (label = k)) as [->|Hne].
  - rewrite counter_value_inc. lia.
  - rewrite counter_value_inc_ne by done. lia.
Qed.

(** X2: a request dispatched to one of the six registered views, if it
    completes, returns the response of the view and is recorded exactly
    once under the name of the view, never under "unknown": the
    request-count series (method, name, status of the response) goes up by
    one and no other changes, and the latency series of that name gains
    one observation and no other changes. *)
Theorem registered_view_recorded_under_its_name (fuel : nat) (name verb : string)
    (view : M Response) (env : Env) (st st' : State) (response : Response) :
  view_functions fuel name = Some view →
  handle_request {| method := verb; endpoint := Some name |} view env st
    = (Return response, st') →
  let labels := (verb, name, status_code response) in
  fst (view env (started env st)) = Return response ∧
  name ≠ "unknown" ∧
  request_count st' labels = S (request_count st labels) ∧
  (∀ k, k ≠ labels → request_count st' k = request_count st k) ∧
  (∃ elapsed, latency_observations st' name = elapsed :: latency_observations st name) ∧
  (∀ l, l ≠ name → latency_observations st' l = latency_observations st l).
Proof.
  intros Hview Hrun labels.
  assert (Hname : name ≠ "unknown" ∧ name ≠ "").
  { unfold view_functions in Hview. repeat case_decide; simplify_eq; done. }
  destruct Hname as [Hunknown Hempty].
  set (request := {| method := verb; endpoint := Some name |}) in *.
  pose proof (view_functions_well_behaved fuel name view Hview) as Hwb.
  destruct (handle_request_outcome env st request view Hwb)
    as [[_ Hout] | (r & Hr & Hret)]; rewrite Hrun in *; [discriminate|].
  destruct (Hwb env (started env st)) as (_ & _ & Hcount & Hlat & _).
  injection Hret as -> ->.
  rewrite (decide_False (P := name = "")) by done.
  unfold request_count, latency_observations, observe_REQUEST_LATENCY,
    inc_REQUEST_COUNT.
  cbn [registry tick REQUEST_COUNT REQUEST_LATENCY method endpoint request].
  rewrite Hcount, Hlat. fold labels.
  split; [exact Hr|]. split; [exact Hunknown|].
  split; [apply counter_value_inc|].
  split; [intros k Hk; by apply counter_value_inc_ne|].
  split; [eexists; by rewrite observations_observe|].
  intros l Hl. by apply observations_observe_ne.
Qed.

Lemma registered_view_recorded_under_its_name_witness :
  let env := steady_env 0 10 10 12 in
  let server_error :=
    with_status (jsonify [("error", JStr "Internal server error")]) 500 in
  ∃ st',
    handle_request {| method := "GET"; endpoint := Some "simulate_error" |}
      simulate_error env idle_state = (Return server_error, st') ∧
    request_count st' ("GET", "simulate_error", 500%Z) = 1%nat ∧
    request_count st' ("GET", "unknown", 500%Z) = 0%nat.
Proof.
  intros env server_error.
  set (request := {| method := "GET"; endpoint := Some "simulate_error" |}).
  assert (Hrun : handle_request request simulate_error env idle_state
                 = (Return server_error,
                    snd (handle_request request simulate_error env idle_state)))
    by (vm_compute; reflexivity).
  destruct (registered_view_recorded_under_its_name 0 "simulate_error" "GET"
              simulate_error env idle_state _ _ eq_refl Hrun)
    as (_ & _ & Hcount & Hother & _).
  eexists. split; [exact Hrun|]. split; [exact Hcount|].
  rewrite Hother; [reflexivity | discriminate].
Defined.



(** X3: whatever the stat source and the serializer do, no registered
    view lets an exception escape: every view returns a response, except
    that [simulate_load] may instead still be spinning when the fuel is
    used up. *)
Theorem registered_views_catch_failures (fuel : nat) (name : string)
    (view : M Response) (env : Env) (st : State) :
  view_functions fuel name = Some view →
  (∃ response, fst (view env st) = Return response) ∨
  (name = "simulate_load" ∧ fst (view env st) = OutOfFuel).
Proof.
  unfold view_functions. intros Hview.
  repeat case_decide; simplify_eq.
  - left. unfold home. run_monad. by eexists.
  - left. unfold health. run_monad.
    destruct (cpu_reading env 1 (tick st)); run_monad; [|by eexists].
    destruct (memory_reading env (S (tick st))); run_monad; [|by eexists].
    unfold Qgtb.
    destruct (Qltb 90 _); destruct (Qltb 90 _);
      cbn [orb]; run_monad; unfold warnings_append; simpl; run_monad; by eexists.
  - unfold simulate_load. run_monad.
    fold (next_draw env st). fold (drawn_duration env st).
    set (duration := drawn_duration env st).
    set (start_time := clock_reading env (S (tick st))).
    destruct (busy_spin_frame env start_time duration fuel (next_tick (next_tick st)))
      as (Hout & _ & _).
    destruct (busy_spin fuel start_time duration env (next_tick (next_tick st)))
      as [out st2].
    cbn [fst snd] in *.
    destruct Hout as [-> | ->]; cbn [fst snd]; [left; by eexists | right; done].
  - left. unfold simulate_error. run_monad.
    destruct (Qltb _ 0.2); [|destruct (Qltb _ 0.3)]; by eexists.
  - left. unfold user_activity. run_monad. destruct (_ && _); run_monad; by eexists.
  - left. unfold metrics. run_monad.
    destruct (cpu_reading env 0.1 (tick st)); run_monad; [|by eexists].
    destruct (memory_reading env (S (tick st))); run_monad; [|by eexists].
    destruct (latest_text env _); by eexists.
Qed.

Lemma registered_views_catch_failures_witness :
  ∃ response,
    fst (health stat_down_env idle_state) = Return response ∧
    status_code response = 500%Z.
Proof.
  destruct (registered_views_catch_failures 0 "health" health stat_down_env
              idle_state eq_refl) as [[response Hrun] | [Hname _]];
    [|discriminate].
  exists response. split; [exact Hrun|].
  assert (Hr : Return response
               = fst (health stat_down_env idle_state)) by (by rewrite Hrun).
  vm_compute in Hr. injection Hr as ->. reflexivity.
Defined.

(** X4: one GET request, whatever its path and outcome, leaves the error
    Counter as it was or increments one of its series by one: no series
    ever decreases, and the total grows by at most one. *)
Theorem serve_get_counts_at_most_one_error (fuel : nat) (path : string)
    (env : Env) (st : State) :
  let st' := snd (serve_get fuel path env st) in
  at_most_one_error st st' ∧
  (∀ k, (error_count st k ≤ error_count st' k ≤ S (error_count st k))%nat) ∧
  (counter_total (ERROR_COUNT (registry st'))
     ≤ S (counter_total (ERROR_COUNT (registry st))))%nat.
Proof.
  cbv zeta. destruct (serve_get_frame fuel path env st) as (_ & Herr & _).
  split; [exact Herr|]. split; [by apply at_most_one_error_bounds|].
  destruct Herr as [-> | [label ->]]; [lia|]. rewrite counter_total_inc. lia.
Qed.

(** X5: no registered view touches the request-count Counter, the
    latency Histogram or the stored start time, whatever its outcome;
    these are written by the hooks only. *)
Theorem views_leave_request_instruments (fuel : nat) (name : string)
    (view : M Response) (env : Env) (st : State) :
  view_functions fuel name = Some view →
  let st' := snd (view env st) in
  REQUEST_COUNT (registry st') = REQUEST_COUNT (registry st) ∧
  REQUEST_LATENCY (registry st') = REQUEST_LATENCY (registry st) ∧
  g_start_time st' = g_start_time st.
Proof.
  intros Hview. cbv zeta.
  destruct (view_functions_well_behaved fuel name view Hview env st)
    as (_ & Hg & Hcount & Hlat & _).
  auto.
Qed.

Lemma views_leave_request_instruments_witness :
  let st := started (steady_env 0 95 50 12) idle_state in
  let st' := snd (health (steady_env 0 95 50 12) st) in
  REQUEST_COUNT (registry st') = REQUEST_COUNT (registry st) ∧
  REQUEST_LATENCY (registry st') = REQUEST_LATENCY (registry st) ∧
  g_start_time st' = g_start_time st.
Proof.
  exact (views_leave_request_instruments 0 "health" health (steady_env 0 95 50 12)
           (started (steady_env 0 95 50 12) idle_state) eq_refl).
Defined.

Lemma serve_all_users_in_range (fuel : nat) (paths : list string) (env : Env) :
  ∀ st, users_in_range st → users_in_range (snd (serve_all fuel paths env st)).
Proof.
  induction paths as [|path rest IH]; intros st Hst; [exact Hst|].
  cbn [serve_all]. unfold bind.
  destruct (serve_get_frame fuel path env st) as (_ & _ & Husers).
  destruct (serve_get fuel path env st) as [[r | e |] st1]; cbn [fst snd] in *; auto.
Qed.

(** X6: the start-up block sets the active-users Gauge to an integer of
    10 .. 50; from then on the Gauge holds an integer of 5 .. 100 after
    any sequence of GET requests, whatever their paths and outcomes. *)
Theorem active_users_stays_in_range (fuel : nat) (paths : list string)
    (env : Env) (st : State) :
  let st0 := snd (main env st) in
  fst (main env st) = Return tt ∧
  (∃ users : Z,
     ACTIVE_USERS (registry st0) = inject_Z users ∧ (10 <= users <= 50)%Z) ∧
  users_in_range (snd (serve_all fuel paths env st0)).
Proof.
  cbv zeta.
  assert (Hinit : ∃ users : Z,
            ACTIVE_USERS (registry (snd (main env st))) = inject_Z users ∧
            (10 <= users <= 50)%Z).
  { unfold main. run_monad. eexists. split; [reflexivity|].
    by apply in_range_bounds. }
  split; [reflexivity|]. split; [exact Hinit|].
  apply serve_all_users_in_range.
  destruct Hinit as (users & Hset & Hrange). exists users. split; [exact Hset | lia].
Qed.

(** X7: after a sequence of GET requests that all completed, the sum of
    all request-count series and the number of latency observations have
    both grown by the number of requests. *)
Theorem serve_all_counts_requests (fuel : nat) (paths : list string) (env : Env) :
  ∀ st st' : State,
    serve_all fuel paths env st = (Return tt, st') →
    counter_total (REQUEST_COUNT (registry st'))
      = (counter_total (REQUEST_COUNT (registry st)) + length paths)%nat ∧
    observation_total (REQUEST_LATENCY (registry st'))
      = (observation_total (REQUEST_LATENCY (registry st)) + length paths)%nat.
Proof.
  induction paths as [|path rest IH]; intros st st' Hrun.
  - cbn in Hrun. injection Hrun as <-. cbn [length]. lia.
  - cbn [serve_all] in Hrun. unfold bind in Hrun.
    set (request := {| method := "GET"; endpoint := url_map path |}).
    pose proof (dispatch_request_well_behaved fuel request) as Hview.
    destruct (Hview env (started env st)) as (_ & _ & Hcount & Hlat & _).
    destruct (handle_request_outcome env st request _ Hview)
      as [[_ Hout] | (r & _ & Hret)];
      unfold serve_get in Hrun; fold request in Hrun;
      [rewrite Hout in Hrun; discriminate|].
    rewrite Hret in Hrun. apply IH in Hrun as [Hc Hl].
    rewrite Hc, Hl. unfold observe_REQUEST_LATENCY, inc_REQUEST_COUNT.
    cbn [registry REQUEST_COUNT REQUEST_LATENCY length].
    rewrite counter_total_inc, observation_total_observe, Hcount, Hlat.
    cbn [started registry]. lia.
Qed.

Lemma serve_all_counts_requests_witness :
  let env := steady_env 0 95 50 12 in
  let paths := ["/health"; "/nowhere"; "/simulate-error"; "/"] in
  ∃ st',
    serve_all 0 paths env idle_state = (Return tt, st') ∧
    counter_total (REQUEST_COUNT (registry st')) = 4%nat ∧
    observation_total (REQUEST_LATENCY (registry st')) = 4%nat.
Proof.
  intros env paths.
  eexists (snd (serve_all 0 paths env idle_state)).
  assert (Hrun : serve_all 0 paths env idle_state
                 = (Return tt, snd (serve_all 0 paths env idle_state)))
    by (vm_compute; reflexivity).
  split; [exact Hrun|].
  exact (serve_all_counts_requests 0 paths env idle_state _ Hrun).
Defined.

(** X8: [metrics] does not undo a refresh when a later step fails: if the
    CPU reading fails both Gauges keep their old values and the memory
    reading is not attempted; if the memory reading fails the CPU Gauge
    already holds the new reading and the memory Gauge the old one; if the
    serializer fails both Gauges hold the new readings.  The answer is the
    fallback in all three cases. *)
Theorem metrics_failure_keeps_partial_refresh (env : Env) (st : State) (e : exn) :
  (cpu_reading env 0.1 (tick st) = Failed e →
   ∃ st', metrics env st = (Return metrics_fallback, st') ∧
          SYSTEM_CPU (registry st') = SYSTEM_CPU (registry st) ∧
          SYSTEM_MEMORY (registry st') = SYSTEM_MEMORY (registry st) ∧
          tick st' = S (tick st)) ∧
  (∀ cpu,
     cpu_reading env 0.1 (tick st) = Got cpu →
     memory_reading env (S (tick st)) = Failed e →
     ∃ st', metrics env st = (Return metrics_fallback, st') ∧
            SYSTEM_CPU (registry st') = cpu ∧
            SYSTEM_MEMORY (registry st') = SYSTEM_MEMORY (registry st)) ∧
  (∀ cpu mem,
     cpu_reading env 0.1 (tick st) = Got cpu →
     memory_reading env (S (tick st)) = Got mem →
     latest_text env (set_SYSTEM_MEMORY mem (set_SYSTEM_CPU cpu (registry st)))
       = Failed e →
     ∃ st', metrics env st = (Return metrics_fallback, st') ∧
            SYSTEM_CPU (registry st') = cpu ∧
            SYSTEM_MEMORY (registry st') = mem).
Proof.
  split; [|split].
  - intros Hcpu. unfold metrics. run_monad. rewrite Hcpu.
    eexists. split; [reflexivity|]. repeat split.
  - intros cpu Hcpu Hmem. unfold metrics. run_monad. rewrite Hcpu. run_monad.
    rewrite Hmem. eexists. split; [reflexivity|]. repeat split.
  - intros cpu mem Hcpu Hmem Htext. unfold metrics. run_monad. rewrite Hcpu.
    run_monad. rewrite Hmem. run_monad. rewrite Htext.
    eexists. split; [reflexivity|]. repeat split.
Qed.

Lemma metrics_failure_keeps_partial_refresh_witness :
  ∃ st',
    metrics memory_down_env idle_state = (Return metrics_fallback, st') ∧
    SYSTEM_CPU (registry st') = 42%Q ∧
    SYSTEM_MEMORY (registry st') = 0%Q.
Proof.
  destruct (metrics_failure_keeps_partial_refresh memory_down_env idle_state
              (Exception "stat source unavailable")) as (_ & Hmem & _).
  exact (Hmem 42%Q eq_refl eq_refl).
Defined.

(** X9: while the elapsed time the loop computes stays below the drawn
    duration, [simulate_load] keeps spinning: it uses up any amount of
    fuel, sets no Gauge and counts no error. *)
Theorem simulate_load_stalled_clock (fuel : nat) (env : Env) (st : State) :
  (∀ i : nat, (i < fuel)%nat →
     (spin_elapsed env st i < drawn_duration env st)%Q) →
  let run := simulate_load fuel env st in
  fst run = OutOfFuel ∧ registry (snd run) = registry st.
Proof.
  intros Hstall. cbv zeta. unfold simulate_load. run_monad.
  fold (next_draw env st). fold (drawn_duration env st).
  set (duration := drawn_duration env st) in *.
  set (start_time := clock_reading env (S (tick st))).
  set (st2 := next_tick (next_tick st)).
  assert (Hspin : ∀ i : nat, (i < fuel)%nat →
                    still_spinning env st2 start_time duration i = true).
  { intros i Hi. unfold still_spinning. apply Qltb_lt. by apply Hstall. }
  pose proof (busy_spin_needs_fuel env start_time duration fuel st2 Hspin) as Hout.
  destruct (busy_spin_frame env start_time duration fuel st2) as (_ & Hreg & _).
  destruct (busy_spin fuel start_time duration env st2) as [out st3].
  cbn [fst snd] in *. subst out. cbn [fst snd]. by rewrite Hreg.
Qed.

Lemma simulate_load_stalled_clock_witness :
  let run := simulate_load 5 clock_set_back_env idle_state in
  fst run = OutOfFuel ∧ registry (snd run) = registry idle_state.
Proof.
  apply (simulate_load_stalled_clock 5 clock_set_back_env idle_state).
  intros i Hi. by vm_compute.
Defined.

Lemma unit_interval_below (raw : N) (num : Z) (bound : N) :
  (0 < num)%Z →
  (∀ k : Z, (0 <= k)%Z →
     (k * 10 < num * 9007199254740992 ↔ k < Z.of_N bound)%Z) →
  Qltb (unit_interval raw) (num # 10) = true ↔ (raw mod 2 ^ 53 < bound)%N.
Proof.
  intros Hnum Hbound. rewrite Qltb_lt. unfold unit_interval, Qlt. cbn [Qnum Qden].
  change (Z.pos (2 ^ 53)) with 9007199254740992%Z.
  set (k := (raw mod 2 ^ 53)%N). clearbody k.
  rewrite (Hbound (Z.of_N k)) by lia. lia.
Qed.

(** X11: which branch [simulate_error] takes is decided by the 53-bit
    draw [k]: 500 iff [k < draws_below_0_2], 400 iff
    [draws_below_0_2 <= k < draws_below_0_3], 200 otherwise; the shares of
    the first two ranges among the 2^53 draws are 20% and 10% (lines 134,
    137, 140) to within 2^-53. *)
Theorem simulate_error_draw_partition (env : Env) (st : State) :
  let k := (next_draw env st mod 2 ^ 53)%N in
  (∃ response st',
     simulate_error env st = (Return response, st') ∧
     (status_code response = 500%Z ↔ (k < draws_below_0_2)%N) ∧
     (status_code response = 400%Z ↔ (draws_below_0_2 <= k < draws_below_0_3)%N) ∧
     (status_code response = 200%Z ↔ (draws_below_0_3 <= k)%N)) ∧
  (Qabs ((Z.of_N draws_below_0_2 # 2 ^ 53) - 0.2) < 1 # 2 ^ 53)%Q ∧
  (Qabs ((Z.of_N (draws_below_0_3 - draws_below_0_2) # 2 ^ 53) - 0.1) < 1 # 2 ^ 53)%Q.
Proof.
  intros k. split; [|split; by vm_compute].
  subst k. unfold next_draw.
  pose proof (unit_interval_below (entropy env (tick st)) 2 draws_below_0_2
                ltac:(lia) ltac:(unfold draws_below_0_2; lia)) as H2.
  pose proof (unit_interval_below (entropy env (tick st)) 3 draws_below_0_3
                ltac:(lia) ltac:(unfold draws_below_0_3; lia)) as H3.
  change (2 # 10)%Q with 0.2%Q in H2. change (3 # 10)%Q with 0.3%Q in H3.
  assert (HAB : (draws_below_0_2 < draws_below_0_3)%N) by reflexivity.
  unfold simulate_error. run_monad.
  set (k := (entropy env (tick st) mod 2 ^ 53)%N) in *.
  destruct (Qltb (unit_interval (entropy env (tick st))) 0.2).
  - assert (Hs : (k < draws_below_0_2)%N) by (by apply H2).
    eexists _, _. split; [reflexivity|]. cbn [status_code with_status].
    repeat split; intros; try done; try lia.
  - assert (Hs : ¬ (k < draws_below_0_2)%N).
    { intros Hlt. apply H2 in Hlt. discriminate. }
    destruct (Qltb (unit_interval (entropy env (tick st))) 0.3).
    + assert (Hc : (k < draws_below_0_3)%N) by (by apply H3).
      eexists _, _. split; [reflexivity|].
      cbn [status_code with_status].
      repeat split; intros; try done; try lia.
    + assert (Hc : ¬ (k < draws_below_0_3)%N).
      { intros Hlt. apply H3 in Hlt. discriminate. }
      eexists _, _. split; [reflexivity|]. cbn [status_code jsonify].
      repeat split; intros; try done; try lia.
Qed.

Lemma simulate_load_duration_field (fuel : nat) (env : Env) (st st' : State)
    (response : Response) :
  simulate_load fuel env st = (Return response, st') →
  field response "duration"
    = Some (JStr (format_2f (drawn_duration env st) +:+ "s")).
Proof.
  unfold simulate_load. run_monad.
  fold (next_draw env st). fold (drawn_duration env st).
  set (start_time := clock_reading env (S (tick st))).
  set (st2 := next_tick (next_tick st)).
  destruct (busy_spin_frame env start_time (drawn_duration env st) fuel st2)
    as (Hout & _ & _).
  destruct (busy_spin fuel start_time (drawn_duration env st) env st2) as [out st3].
  cbn [fst snd] in *.
  destruct Hout as [-> | ->]; intros Hrun; [|discriminate].
  injection Hrun as <- _. reflexivity.
Qed.

(** How [format_2f] prints a value of [0.5, 3.0]. *)
Lemma format_2f_hundredths (q : Q) :
  (0.5 <= q)%Q → (q <= 3.0)%Q →
  ∃ hundredths : Z,
    format_2f q
      = pretty (hundredths / 100)%Z +:+ "." +:+ two_digits (hundredths mod 100)%Z ∧
    (50 <= hundredths <= 300)%Z ∧
    (Qabs (inject_Z hundredths - 100 * q) <= 1 # 2)%Q.
Proof.
  intros Hlo Hhi.
  exists (round_half_even (Qabs q * 100)).
  assert (Hpos : (0 <= q)%Q) by lra.
  assert (Habs : (Qabs q * 100 == 100 * q)%Q).
  { rewrite (Qabs_pos _ Hpos). ring. }
  assert (Hsign : Qltb q 0 = false) by (by apply Qltb_ge).
  split; [unfold format_2f; rewrite Hsign; reflexivity|].
  pose proof (round_half_even_close (Qabs q * 100)) as Hclose.
  set (h := round_half_even (Qabs q * 100)) in *. clearbody h.
  rewrite Habs in Hclose.
  split; [|exact Hclose].
  apply Qabs_Qle_condition in Hclose as [Hdown Hup].
  assert (H1 : (49 < inject_Z h)%Q) by lra.
  assert (H2 : (inject_Z h < 301)%Q) by lra.
  unfold Qlt, inject_Z in H1, H2. cbn [Qnum Qden] in H1, H2. lia.
Qed.

(** X12: whenever [simulate_load] returns, its "duration" field is the
    drawn double printed as [hundredths / 100], a dot, two digits and "s",
    where [hundredths] is an integer of 50 .. 300 nearest to
    100 * duration: the report is within 0.005 s of the draw. *)
Theorem reported_duration_accuracy (env : Env) (st : State) :
  let duration := drawn_duration env st in
  (∀ fuel response st',
     simulate_load fuel env st = (Return response, st') →
     field response "duration" = Some (JStr (format_2f duration +:+ "s"))) ∧
  ∃ hundredths : Z,
    format_2f duration
      = pretty (hundredths / 100)%Z +:+ "." +:+ two_digits (hundredths mod 100)%Z ∧
    (50 <= hundredths <= 300)%Z ∧
    (Qabs (inject_Z hundredths - 100 * duration) <= 1 # 2)%Q.
Proof.
  intros duration.
  split; [intros fuel response st'; apply simulate_load_duration_field|].
  destruct (drawn_duration_range env st) as [Hlo Hhi].
  exact (format_2f_hundredths (drawn_duration env st) Hlo Hhi).
Qed.

Lemma reported_duration_accuracy_witness :
  let env := steady_env 1134907106097365 10 10 12 in
  ∃ response st',
    simulate_load 1 env idle_state = (Return response, st') ∧
    field response "duration" = Some (JStr "0.81s").
Proof.
  intros env.
  assert (Hrun : simulate_load 1 env idle_state
                 = (Return (jsonify [("message", JStr "Load simulation completed");
                                     ("duration", JStr "0.81s");
                                     ("timestamp", JFloat 4)]),
                    snd (simulate_load 1 env idle_state)))
    by (vm_compute; reflexivity).
  destruct (reported_duration_accuracy env idle_state) as [Hfield _].
  eexists _, _. split; [exact Hrun|].
  rewrite (Hfield 1%nat _ _ Hrun). vm_compute. reflexivity.
Defined.

(** X13: on success [health] echoes the readings it judged under
    "system", stamps the response with the clock reading taken after
    both, makes exactly three external calls, and when both thresholds
    are exceeded lists the CPU warning before the memory warning. *)
Theorem health_reports_its_readings (env : Env) (st : State) (cpu mem : Q) :
  cpu_reading env 1 (tick st) = Got cpu →
  memory_reading env (S (tick st)) = Got mem →
  ∃ health_data st',
    health env st = (Return (jsonify health_data), st') ∧
    dict_get health_data "system"
      = Some (JDict [("cpu_percent", JFloat cpu); ("memory_percent", JFloat mem)]) ∧
    dict_get health_data "timestamp"
      = Some (JFloat (clock_reading env (S (S (tick st))))) ∧
    tick st' = (3 + tick st)%nat ∧
    ((90 < cpu)%Q → (90 < mem)%Q →
       dict_get health_data "warnings"
         = Some (JList [JStr "High CPU usage"; JStr "High memory usage"])).
Proof.
  intros Hcpu Hmem.
  unfold health. run_monad. rewrite Hcpu. run_monad. rewrite Hmem.
  unfold Qgtb.
  destruct (Qltb 90 cpu) eqn:Hc; destruct (Qltb 90 mem) eqn:Hm;
    cbn [orb]; run_monad; unfold warnings_append; simpl; run_monad;
    (eexists _, _; split; [reflexivity|]);
    (split; [reflexivity|]); (split; [reflexivity|]); (split; [reflexivity|]);
    intros Hc' Hm'; try reflexivity;
    apply Qltb_lt in Hc', Hm'; congruence.
Qed.

Lemma health_reports_its_readings_witness :
  ∃ health_data st',
    health (steady_env 0 95 97 12) idle_state = (Return (jsonify health_data), st') ∧
    dict_get health_data "system"
      = Some (JDict [("cpu_percent", JFloat 95); ("memory_percent", JFloat 97)]) ∧
    dict_get health_data "warnings"
      = Some (JList [JStr "High CPU usage"; JStr "High memory usage"]).
Proof.
  destruct (health_reports_its_readings (steady_env 0 95 97 12) idle_state 95 97
              eq_refl eq_refl)
    as (d & st' & Hrun & Hsys & _ & _ & Hwarn).
  exists d, st'. split; [exact Hrun|]. split; [exact Hsys|].
  apply Hwarn; reflexivity.
Defined.

(** X14: among the registered views, only [metrics] writes the system
    CPU and memory Gauges, and only [simulate_load] and [user_activity]
    write the active-users Gauge, whatever the outcome. *)
Theorem gauges_written_only_by_owners (fuel : nat) (name : string)
    (view : M Response) (env : Env) (st : State) :
  view_functions fuel name = Some view →
  let st' := snd (view env st) in
  (name ≠ "metrics" →
     SYSTEM_CPU (registry st') = SYSTEM_CPU (registry st) ∧
     SYSTEM_MEMORY (registry st') = SYSTEM_MEMORY (registry st)) ∧
  (name ≠ "simulate_load" → name ≠ "user_activity" →
     ACTIVE_USERS (registry st') = ACTIVE_USERS (registry st)).
Proof.
  unfold view_functions. intros Hview. cbv zeta.
  repeat case_decide; simplify_eq.
  - unfold home. run_monad. done.
  - unfold health. run_monad.
    destruct (cpu_reading env 1 (tick st)); run_monad; [|done].
    destruct (memory_reading env (S (tick st))); run_monad; [|done].
    unfold Qgtb.
    destruct (Qltb 90 _); destruct (Qltb 90 _);
      cbn [orb]; run_monad; unfold warnings_append; simpl; run_monad; done.
  - split; [intros _|done].
    unfold simulate_load. run_monad.
    fold (next_draw env st). fold (drawn_duration env st).
  set (duration := drawn_duration env st).
    set (start_time := clock_reading env (S (tick st))).
    destruct (busy_spin_frame env start_time duration fuel (next_tick (next_tick st)))
      as (Hout & Hreg & _).
    destruct (busy_spin fuel start_time duration env (next_tick (next_tick st)))
      as [out st2].
    cbn [fst snd] in *.
    destruct Hout as [-> | ->];
      cbn [fst snd registry next_tick SYSTEM_CPU SYSTEM_MEMORY set_ACTIVE_USERS];
      by rewrite Hreg.
  - unfold simulate_error. run_monad.
    destruct (Qltb _ 0.2); [|destruct (Qltb _ 0.3)]; done.
  - split; [intros _|done].
    unfold user_activity. run_monad. destruct (_ && _); run_monad; done.
  - split; [done|intros _ _].
    unfold metrics. run_monad.
    destruct (cpu_reading env 0.1 (tick st)); run_monad; [|done].
    destruct (memory_reading env (S (tick st))); run_monad; [|done].
    destruct (latest_text env _); done.
Qed.

Lemma gauges_written_only_by_owners_witness :
  let env := steady_env 0 10 10 12 in
  let st' := snd (user_activity env idle_state) in
  SYSTEM_CPU (registry st') = 0%Q ∧ SYSTEM_MEMORY (registry st') = 0%Q.
Proof.
  intros env st'.
  destruct (gauges_written_only_by_owners 0 "user_activity" user_activity env
              idle_state eq_refl) as [Hsys _].
  apply Hsys. discriminate.
Defined.
